(** * MCP integration examples: calculator server and LLM agent

    A shallow embedding of [custom_mcp/calculator_server.py] and
    [custom_mcp/llm_agent.py], with the properties of the tool-call
    extractor, the conversation loop and the JSON-RPC dispatch.

    Python text is a sequence of Unicode code points; values are the ones
    [json.loads] produces (None, bool, int, float, str, list, dict), a
    float being an IEEE 754 double.  [json.loads], [re.findall] on the
    five patterns of the agent, [bytes.decode] and the operators [+], [-],
    [in] and subscription are written out and run.

    What answers from outside is given in advance: the completion
    endpoint and the MCP server are lists of the replies to come, each a
    value or the exception the request raises.  A request that finds its
    list empty waits.  [repr] of a value is a parameter. *)

From Stdlib Require Import String Ascii Strings.Byte List ZArith NArith.
From Stdlib Require Import Bool Lia.
From Stdlib Require Import Floats.SpecFloat DecimalString.
Import ListNotations.

Set Implicit Arguments.
Set Warnings "-register-all".

(** ** Text *)

Module Text.

Definition char := N.
Definition text := list char.

(** A source literal, character by character. *)
Definition lit (s : string) : text := map N_of_ascii (list_ascii_of_string s).

(** The double quote, which the literals of this file never contain. *)
Definition QUOTE : char := 34%N.

(** A literal written with apostrophes where the text has double quotes. *)
Definition jq (s : string) : text :=
  map (fun c => if N.eqb c 39 then QUOTE else c) (lit s).

Fixpoint text_eqb (a b : text) : bool :=
  match a, b with
  | [], [] => true
  | x :: a', y :: b' => N.eqb x y && text_eqb a' b'
  | _, _ => false
  end.

(** [s.startswith(p)], returning what follows the prefix. *)
Fixpoint strip_prefix (p s : text) : option text :=
  match p, s with
  | [], _ => Some s
  | x :: p', y :: s' => if N.eqb x y then strip_prefix p' s' else None
  | _ :: _, [] => None
  end.

(** [p in s] for two strings. *)
Fixpoint contains (p s : text) : bool :=
  match strip_prefix p s with
  | Some _ => true
  | None => match s with
            | [] => false
            | _ :: s' => contains p s'
            end
  end.

(** [sep.join(parts)] *)
Fixpoint join (sep : text) (parts : list text) : text :=
  match parts with
  | [] => []
  | [p] => p
  | p :: rest => p ++ sep ++ join sep rest
  end.

End Text.
Export Text.

(** ** Values *)

Module Py.

(** IEEE 754 binary64, as [spec_float] with 53 bits of precision. *)
Definition float := spec_float.
Definition prec : Z := 53.
Definition emax : Z := 1024.
Definition float_add : float -> float -> float := SFadd prec emax.
Definition float_sub : float -> float -> float := SFsub prec emax.

Inductive value :=
| VNone
| VBool (b : bool)
| VInt (z : Z)
| VFloat (f : float)
| VStr (s : text)
| VList (l : list value)
| VDict (d : list (text * value)).

(** Exceptions carry the text [str(e)] yields.  The interpreter's own
    messages are worded as CPython 3.11 words them.  The two decode errors
    report a position in their message; no code path of the program
    reads it, and it is left empty here. *)
Inductive exn :=
| ValueError (msg : text)
| JSONDecodeError (msg : text)
| UnicodeDecodeError (msg : text)
| TypeError (msg : text)
| OverflowError (msg : text)
| AttributeError (msg : text)
| KeyError (msg : text)
| Exception (msg : text).

Definition exn_str (e : exn) : text :=
  match e with
  | ValueError m | JSONDecodeError m | UnicodeDecodeError m | TypeError m
  | OverflowError m
  | AttributeError m | KeyError m | Exception m => m
  end.

Inductive result (A : Type) :=
| Ok (a : A)
| Raise (e : exn).
Arguments Ok {A} a.
Arguments Raise {A} e.

(** *** dict: string keys, in insertion order *)

Section Dict.
Context {A : Type}.

Fixpoint dict_get (d : list (text * A)) (k : text) : option A :=
  match d with
  | [] => None
  | (k', v) :: d' => if text_eqb k' k then Some v else dict_get d' k
  end.

(** [k in d] *)
Definition dict_in (k : text) (d : list (text * A)) : bool :=
  match dict_get d k with Some _ => true | None => false end.

(** [d[k] = v]: an existing key keeps its position. *)
Fixpoint dict_set (d : list (text * A)) (k : text) (v : A)
  : list (text * A) :=
  match d with
  | [] => [(k, v)]
  | (k', v') :: d' =>
      if text_eqb k' k then (k', v) :: d' else (k', v') :: dict_set d' k v
  end.
End Dict.

Definition dict := list (text * value).

(** [d.get(k)] and [d.get(k, default)] *)
Definition get (d : dict) (k : text) : value :=
  match dict_get d k with Some v => v | None => VNone end.

Definition get_default (d : dict) (k : text) (default : value) : value :=
  match dict_get d k with Some v => v | None => default end.

(** *** Truth value, type names, equality with a string *)

Definition float_is_zero (f : float) : bool :=
  match f with S754_zero _ => true | _ => false end.

Definition truthy (v : value) : bool :=
  match v with
  | VNone => false
  | VBool b => b
  | VInt z => negb (Z.eqb z 0)
  | VFloat f => negb (float_is_zero f)
  | VStr s => match s with [] => false | _ => true end
  | VList l => match l with [] => false | _ => true end
  | VDict d => match d with [] => false | _ => true end
  end.

Definition type_name (v : value) : text :=
  match v with
  | VNone => lit "NoneType"
  | VBool _ => lit "bool"
  | VInt _ => lit "int"
  | VFloat _ => lit "float"
  | VStr _ => lit "str"
  | VList _ => lit "list"
  | VDict _ => lit "dict"
  end.

(** [v == s] for a string [s]: only an equal string is equal to it. *)
Definition eq_str (v : value) (s : text) : bool :=
  match v with
  | VStr s' => text_eqb s' s
  | _ => false
  end.

End Py.
Export Py.

(** ** json.loads *)

Module JsonDecoder.

(** *** Numbers

    A literal with a fraction or an exponent is a float, the correctly
    rounded value of [m * 10^e]; any other is an int. *)

Definition float_of_decimal (neg : bool) (m e : Z) : float :=
  match m with
  | Zpos p =>
      if Z.leb 0 e then
        binary_normalize prec emax (if neg then - (m * 10 ^ e) else m * 10 ^ e)
                         0 false
      else
        let d := (10 ^ (- e))%Z in
        let s := Z.max 0 (64 + Zdigits2 d - Zdigits2 m) in
        let n := (m * 2 ^ s)%Z in
        let q := (n / d)%Z in
        let r := (n mod d)%Z in
        let l := if Z.eqb r 0 then loc_Exact
                 else loc_Inexact (Z.compare (2 * r) d) in
        binary_round_aux prec emax neg q (- s) l
  | _ => S754_zero neg
  end.

Record number := {
  num_neg : bool;          (* a leading minus sign *)
  num_digits : Z;          (* the digits of the integer and fraction parts *)
  num_scale : Z;           (* how many of them belong to the fraction *)
  num_exp_neg : bool;
  num_exp : Z;
  num_is_float : bool
}.

Definition number_value (n : number) : value :=
  if num_is_float n then
    VFloat (float_of_decimal (num_neg n) (num_digits n)
              ((if num_exp_neg n then - num_exp n else num_exp n)
               - num_scale n))
  else VInt (if num_neg n then - num_digits n else num_digits n).

(** *** Lexer: one character at a time *)

Inductive token :=
| TLBrace | TRBrace | TLBracket | TRBracket | TColon | TComma
| TString (s : text)
| TValue (v : value).

Inductive num_phase :=
| NSign      (* after the minus sign *)
| NZero      (* the integer part is 0 *)
| NInt       (* inside the integer part *)
| NDot       (* after the decimal point *)
| NFrac      (* inside the fraction *)
| NE         (* after e or E *)
| NESign     (* after the sign of the exponent *)
| NExp.      (* inside the exponent *)

Inductive lex_state :=
| LStart
| LWord (acc : text)                        (* letters read, reversed *)
| LNum (ph : num_phase) (n : number)
| LStr (acc : list (char * bool))           (* reversed; [true]: from \u *)
| LEsc (acc : list (char * bool))
| LUni (acc : list (char * bool)) (k : nat) (v : N).

Definition is_ws (c : char) : bool :=
  N.eqb c 32 || N.eqb c 9 || N.eqb c 10 || N.eqb c 13.

Definition is_digit (c : char) : bool := N.leb 48 c && N.leb c 57.

Definition digit_val (c : char) : Z := Z.of_N c - 48.

Definition is_letter (c : char) : bool :=
  (N.leb 65 c && N.leb c 90) || (N.leb 97 c && N.leb c 122).

Definition hex_val (c : char) : option N :=
  if is_digit c then Some (c - 48)%N
  else if N.leb 97 c && N.leb c 102 then Some (c - 87)%N
  else if N.leb 65 c && N.leb c 70 then Some (c - 55)%N
  else None.

Definition word_value (w : text) : option value :=
  if text_eqb w (lit "null") then Some VNone
  else if text_eqb w (lit "true") then Some (VBool true)
  else if text_eqb w (lit "false") then Some (VBool false)
  else if text_eqb w (lit "NaN") then Some (VFloat S754_nan)
  else if text_eqb w (lit "Infinity") then Some (VFloat (S754_infinity false))
  else if text_eqb w (lit "-Infinity") then Some (VFloat (S754_infinity true))
  else None.

(** A \uXXXX escape naming a high surrogate joins a following \uXXXX low
    surrogate into one code point. *)
Fixpoint join_surrogates (l : list (char * bool)) : text :=
  match l with
  | [] => []
  | (c, esc) :: rest =>
      match rest with
      | (c2, true) :: rest' =>
          if esc && N.leb 55296 c && N.leb c 56319
                 && N.leb 56320 c2 && N.leb c2 57343
          then (65536 + (c - 55296) * 1024 + (c2 - 56320))%N
                 :: join_surrogates rest'
          else c :: join_surrogates rest
      | _ => c :: join_surrogates rest
      end
  end.

Definition zero_number (neg : bool) : number :=
  {| num_neg := neg; num_digits := 0; num_scale := 0;
     num_exp_neg := false; num_exp := 0; num_is_float := false |}.

Definition push_int (n : number) (c : char) : number :=
  {| num_neg := num_neg n; num_digits := num_digits n * 10 + digit_val c;
     num_scale := num_scale n; num_exp_neg := num_exp_neg n;
     num_exp := num_exp n; num_is_float := num_is_float n |}.

Definition push_frac (n : number) (c : char) : number :=
  {| num_neg := num_neg n; num_digits := num_digits n * 10 + digit_val c;
     num_scale := num_scale n + 1; num_exp_neg := num_exp_neg n;
     num_exp := num_exp n; num_is_float := true |}.

Definition push_exp (n : number) (c : char) : number :=
  {| num_neg := num_neg n; num_digits := num_digits n;
     num_scale := num_scale n; num_exp_neg := num_exp_neg n;
     num_exp := num_exp n * 10 + digit_val c; num_is_float := true |}.

Definition set_float (n : number) (eneg : bool) : number :=
  {| num_neg := num_neg n; num_digits := num_digits n;
     num_scale := num_scale n; num_exp_neg := eneg;
     num_exp := num_exp n; num_is_float := true |}.

(** What a character does at the start of a token. *)
Definition lex_start (c : char) : option (list token * lex_state) :=
  if is_ws c then Some ([], LStart)
  else if N.eqb c 123 then Some ([TLBrace], LStart)
  else if N.eqb c 125 then Some ([TRBrace], LStart)
  else if N.eqb c 91 then Some ([TLBracket], LStart)
  else if N.eqb c 93 then Some ([TRBracket], LStart)
  else if N.eqb c 58 then Some ([TColon], LStart)
  else if N.eqb c 44 then Some ([TComma], LStart)
  else if N.eqb c QUOTE then Some ([], LStr [])
  else if N.eqb c 45 then Some ([], LNum NSign (zero_number true))
  else if N.eqb c 48 then Some ([], LNum NZero (zero_number false))
  else if is_digit c then Some ([], LNum NInt (push_int (zero_number false) c))
  else if is_letter c then Some ([], LWord [c])
  else None.

(** The token a state stands for when the text stops being part of it. *)
Definition lex_flush (st : lex_state) : option (list token) :=
  match st with
  | LStart => Some []
  | LWord acc =>
      match word_value (rev acc) with
      | Some v => Some [TValue v]
      | None => None
      end
  | LNum ph n =>
      match ph with
      | NZero | NInt | NFrac | NExp => Some [TValue (number_value n)]
      | _ => None
      end
  | _ => None
  end.

Definition flush_then_start (st : lex_state) (c : char)
  : option (list token * lex_state) :=
  match lex_flush st, lex_start c with
  | Some ts, Some (ts', st') => Some (ts ++ ts', st')
  | _, _ => None
  end.

Definition lex_step (st : lex_state) (c : char)
  : option (list token * lex_state) :=
  match st with
  | LStart => lex_start c
  | LWord acc =>
      if is_letter c then Some ([], LWord (c :: acc))
      else flush_then_start st c
  | LNum ph n =>
      let is_e := N.eqb c 101 || N.eqb c 69 in
      match ph with
      | NSign =>
          if N.eqb c 48 then Some ([], LNum NZero n)
          else if is_digit c then Some ([], LNum NInt (push_int n c))
          else if N.eqb c 73 then Some ([], LWord [c; 45%N])
          else None
      | NZero =>
          if N.eqb c 46 then Some ([], LNum NDot n)
          else if is_e then Some ([], LNum NE n)
          else flush_then_start st c
      | NInt =>
          if is_digit c then Some ([], LNum NInt (push_int n c))
          else if N.eqb c 46 then Some ([], LNum NDot n)
          else if is_e then Some ([], LNum NE n)
          else flush_then_start st c
      | NDot =>
          if is_digit c then Some ([], LNum NFrac (push_frac n c)) else None
      | NFrac =>
          if is_digit c then Some ([], LNum NFrac (push_frac n c))
          else if is_e then Some ([], LNum NE n)
          else flush_then_start st c
      | NE =>
          if is_digit c then Some ([], LNum NExp (push_exp n c))
          else if N.eqb c 43 then Some ([], LNum NESign (set_float n false))
          else if N.eqb c 45 then Some ([], LNum NESign (set_float n true))
          else None
      | NESign =>
          if is_digit c then Some ([], LNum NExp (push_exp n c)) else None
      | NExp =>
          if is_digit c then Some ([], LNum NExp (push_exp n c))
          else flush_then_start st c
      end
  | LStr acc =>
      if N.eqb c QUOTE then Some ([TString (join_surrogates (rev acc))], LStart)
      else if N.eqb c 92 then Some ([], LEsc acc)
      else if N.ltb c 32 then None
      else Some ([], LStr ((c, false) :: acc))
  | LEsc acc =>
      if N.eqb c QUOTE || N.eqb c 92 || N.eqb c 47
      then Some ([], LStr ((c, false) :: acc))
      else if N.eqb c 98 then Some ([], LStr ((8%N, false) :: acc))
      else if N.eqb c 102 then Some ([], LStr ((12%N, false) :: acc))
      else if N.eqb c 110 then Some ([], LStr ((10%N, false) :: acc))
      else if N.eqb c 114 then Some ([], LStr ((13%N, false) :: acc))
      else if N.eqb c 116 then Some ([], LStr ((9%N, false) :: acc))
      else if N.eqb c 117 then Some ([], LUni acc 0 0%N)
      else None
  | LUni acc k v =>
      match hex_val c with
      | Some h =>
          let v' := (v * 16 + h)%N in
          if Nat.eqb k 3 then Some ([], LStr ((v', true) :: acc))
          else Some ([], LUni acc (S k) v')
      | None => None
      end
  end.

Fixpoint lex (st : lex_state) (s : text) : option (list token) :=
  match s with
  | [] => lex_flush st
  | c :: s' =>
      match lex_step st c with
      | Some (ts, st') =>
          match lex st' s' with
          | Some rest => Some (ts ++ rest)
          | None => None
          end
      | None => None
      end
  end.

(** *** Parser: a stack of the containers still open *)

Inductive frame :=
| FList (acc : list value)                 (* elements read, reversed *)
| FDict (acc : dict)                       (* a key is due *)
| FDictK (acc : dict) (key : text).        (* the value of [key] is due *)

Inductive mode :=
| MValue       (* a value is due *)
| MFirst       (* after the opening bracket: a value or the closing one *)
| MKeyFirst    (* after the opening brace: a key or the closing one *)
| MKey         (* after a comma in an object *)
| MColon       (* after a key *)
| MNext        (* after an element: a comma or the closing delimiter *)
| MEnd (v : value).   (* the document is complete *)

(** A finished value goes to the innermost open container. *)
Definition complete (v : value) (stack : list frame)
  : option (list frame * mode) :=
  match stack with
  | [] => Some ([], MEnd v)
  | FList acc :: st => Some (FList (v :: acc) :: st, MNext)
  | FDictK acc k :: st => Some (FDict (dict_set acc k v) :: st, MNext)
  | FDict _ :: _ => None
  end.

Definition parse_step (stack : list frame) (m : mode) (t : token)
  : option (list frame * mode) :=
  match m, t with
  | (MValue | MFirst), TString s => complete (VStr s) stack
  | (MValue | MFirst), TValue v => complete v stack
  | (MValue | MFirst), TLBracket => Some (FList [] :: stack, MFirst)
  | (MValue | MFirst), TLBrace => Some (FDict [] :: stack, MKeyFirst)
  | MFirst, TRBracket =>
      match stack with
      | FList _ :: st => complete (VList []) st
      | _ => None
      end
  | (MKeyFirst | MKey), TString k =>
      match stack with
      | FDict acc :: st => Some (FDictK acc k :: st, MColon)
      | _ => None
      end
  | MKeyFirst, TRBrace =>
      match stack with
      | FDict _ :: st => complete (VDict []) st
      | _ => None
      end
  | MColon, TColon => Some (stack, MValue)
  | MNext, TComma =>
      match stack with
      | FList _ :: _ => Some (stack, MValue)
      | FDict _ :: _ => Some (stack, MKey)
      | _ => None
      end
  | MNext, TRBracket =>
      match stack with
      | FList acc :: st => complete (VList (rev acc)) st
      | _ => None
      end
  | MNext, TRBrace =>
      match stack with
      | FDict acc :: st => complete (VDict acc) st
      | _ => None
      end
  | _, _ => None
  end.

Fixpoint parse (stack : list frame) (m : mode) (ts : list token)
  : option value :=
  match ts with
  | [] => match stack, m with
          | [], MEnd v => Some v
          | _, _ => None
          end
  | t :: ts' =>
      match parse_step stack m t with
      | Some (stack', m') => parse stack' m' ts'
      | None => None
      end
  end.

(** The value of a document, if it is one. *)
Definition decode (s : text) : option value :=
  match lex LStart s with
  | Some ts => parse [] MValue ts
  | None => None
  end.

(** [json.loads(s)].  The limits of the interpreter (the depth of nesting
    it recurses to, the number of digits it converts to an int) are not
    part of the model. *)
Definition json_loads (s : text) : result value :=
  match decode s with
  | Some v => Ok v
  | None => Raise (JSONDecodeError [])
  end.

End JsonDecoder.
Export JsonDecoder.

(** ** re.findall *)

Module Re.

Inductive regex :=
| Eps
| Chr (c : char)
| Any                       (* the dot, under re.DOTALL *)
| NotIn (cs : text)         (* a negated class *)
| Space                     (* \s *)
| Seq (r1 r2 : regex)
| Alt (r1 r2 : regex)
| Star (r : regex)          (* greedy *)
| Lazy (r : regex)          (* the non-greedy star *)
| Group (r : regex).        (* the capturing group *)

Definition Plus (r : regex) : regex := Seq r (Star r).

Fixpoint Str (s : text) : regex :=
  match s with
  | [] => Eps
  | c :: s' => Seq (Chr c) (Str s')
  end.

Fixpoint mem (c : char) (cs : text) : bool :=
  match cs with
  | [] => false
  | x :: cs' => N.eqb x c || mem c cs'
  end.

(** What \s matches in a str pattern. *)
Definition is_space (c : char) : bool :=
  (N.leb 9 c && N.leb c 13) || (N.leb 28 c && N.leb c 32)
  || N.eqb c 133 || N.eqb c 160 || N.eqb c 5760
  || (N.leb 8192 c && N.leb c 8202) || N.eqb c 8232 || N.eqb c 8233
  || N.eqb c 8239 || N.eqb c 8287 || N.eqb c 12288.

(** Backtracking match of [r] at the head of [s]; [k] is what must match
    after it, [cap] the text of the group so far. *)
Fixpoint rmatch {R : Type} (r : regex) (s : text) (cap : option text)
    (k : text -> option text -> option R) {struct r} : option R :=
  match r with
  | Eps => k s cap
  | Chr c =>
      match s with
      | x :: s' => if N.eqb x c then k s' cap else None
      | [] => None
      end
  | Any =>
      match s with
      | _ :: s' => k s' cap
      | [] => None
      end
  | NotIn cs =>
      match s with
      | x :: s' => if mem x cs then None else k s' cap
      | [] => None
      end
  | Space =>
      match s with
      | x :: s' => if is_space x then k s' cap else None
      | [] => None
      end
  | Seq r1 r2 => rmatch r1 s cap (fun s' cap' => rmatch r2 s' cap' k)
  | Alt r1 r2 =>
      match rmatch r1 s cap k with
      | Some x => Some x
      | None => rmatch r2 s cap k
      end
  | Star r' =>
      (fix star (n : nat) (s : text) (cap : option text) : option R :=
         match n with
         | O => k s cap
         | S n' =>
             match rmatch r' s cap
                     (fun s' cap' =>
                        if Nat.ltb (length s') (length s)
                        then star n' s' cap' else None) with
             | Some x => Some x
             | None => k s cap
             end
         end) (length s) s cap
  | Lazy r' =>
      (fix lazy (n : nat) (s : text) (cap : option text) : option R :=
         match k s cap with
         | Some x => Some x
         | None =>
             match n with
             | O => None
             | S n' =>
                 rmatch r' s cap
                   (fun s' cap' =>
                      if Nat.ltb (length s') (length s)
                      then lazy n' s' cap' else None)
             end
         end) (length s) s cap
  | Group r' =>
      rmatch r' s cap
        (fun s' _ => k s' (Some (firstn (length s - length s') s)))
  end.

Fixpoint has_group (r : regex) : bool :=
  match r with
  | Group _ => true
  | Seq r1 r2 | Alt r1 r2 => has_group r1 || has_group r2
  | Star r' | Lazy r' => has_group r'
  | _ => false
  end.

(** The match starting at the head of [s]: what follows it, and the group. *)
Definition match_at (r : regex) (s : text) : option (text * option text) :=
  rmatch r s None (fun s' cap => Some (s', cap)).

(** What [re.findall] lists for one match: the group of a pattern that has
    one, the whole match of a pattern that has none. *)
Definition item (r : regex) (s rest : text) (cap : option text) : text :=
  if has_group r then match cap with Some g => g | None => [] end
  else firstn (length s - length rest) s.

(** Matches are searched left to right and do not overlap: after a match
    the search resumes where it ended ([skip] characters are stepped
    over). *)
Fixpoint findall_from (r : regex) (skip : nat) (s : text) {struct s}
  : list text :=
  match skip, s with
  | S n, _ :: s' => findall_from r n s'
  | S _, [] => []
  | O, _ =>
      match match_at r s with
      | Some (rest, cap) =>
          item r s rest cap ::
            match s with
            | [] => []
            | _ :: s' => findall_from r (length s - length rest - 1) s'
            end
      | None =>
          match s with
          | [] => []
          | _ :: s' => findall_from r 0 s'
          end
      end
  end.

Definition findall (r : regex) (s : text) : list text := findall_from r 0 s.

End Re.
Export Re.


(** ** Operators of the language *)

Module Operators.

Definition apostrophe (s : text) : text := lit "'" ++ s ++ lit "'".

(** [float(z)]: the nearest double, or OverflowError beyond the range. *)
Definition int_to_float (z : Z) : result float :=
  match binary_normalize prec emax z 0 false with
  | S754_infinity _ =>
      Raise (OverflowError (lit "int too large to convert to float"))
  | f => Ok f
  end.

(** The numeric view of a value: bool counts as int. *)
Inductive num :=
| NumInt (z : Z)
| NumFloat (f : float).

Definition as_num (v : value) : option num :=
  match v with
  | VBool b => Some (NumInt (if b then 1 else 0))
  | VInt z => Some (NumInt z)
  | VFloat f => Some (NumFloat f)
  | _ => None
  end.

(** Arithmetic on two numbers: exact on two ints, in doubles as soon as
    one operand is a float. *)
Definition arith (iop : Z -> Z -> Z) (fop : float -> float -> float)
    (x y : num) : result value :=
  match x, y with
  | NumInt a, NumInt b => Ok (VInt (iop a b))
  | NumFloat a, NumFloat b => Ok (VFloat (fop a b))
  | NumInt a, NumFloat b =>
      match int_to_float a with
      | Ok a' => Ok (VFloat (fop a' b))
      | Raise e => Raise e
      end
  | NumFloat a, NumInt b =>
      match int_to_float b with
      | Ok b' => Ok (VFloat (fop a b'))
      | Raise e => Raise e
      end
  end.

Definition unsupported (op : text) (a b : value) : exn :=
  TypeError (lit "unsupported operand type(s) for " ++ op ++ lit ": "
             ++ apostrophe (type_name a) ++ lit " and "
             ++ apostrophe (type_name b)).

Definition cannot_concatenate (a b : value) : exn :=
  TypeError (lit "can only concatenate " ++ type_name a ++ lit " (not "
             ++ [QUOTE] ++ type_name b ++ [QUOTE] ++ lit ") to "
             ++ type_name a).

(** [a + b] *)
Definition py_add (a b : value) : result value :=
  match as_num a, as_num b with
  | Some x, Some y => arith Z.add float_add x y
  | _, _ =>
      match a, b with
      | VStr s, VStr t => Ok (VStr (s ++ t))
      | VList l, VList m => Ok (VList (l ++ m))
      | VStr _, _ | VList _, _ => Raise (cannot_concatenate a b)
      | _, _ => Raise (unsupported (lit "+") a b)
      end
  end.

(** [a - b] *)
Definition py_sub (a b : value) : result value :=
  match as_num a, as_num b with
  | Some x, Some y => arith Z.sub float_sub x y
  | _, _ => Raise (unsupported (lit "-") a b)
  end.

(** [k in c] for a string [k] *)
Definition py_in (k : text) (c : value) : result bool :=
  match c with
  | VDict d => Ok (dict_in k d)
  | VList l => Ok (existsb (fun x => eq_str x k) l)
  | VStr s => Ok (contains k s)
  | _ => Raise (TypeError (lit "argument of type " ++ apostrophe (type_name c)
                           ++ lit " is not iterable"))
  end.

(** [c[k]] for a string [k] *)
Definition py_getitem (c : value) (k : text) : result value :=
  match c with
  | VDict d =>
      match dict_get d k with
      | Some v => Ok v
      | None => Raise (KeyError (apostrophe k))
      end
  | VList _ =>
      Raise (TypeError (lit "list indices must be integers or slices, not str"))
  | VStr _ =>
      Raise (TypeError (lit "string indices must be integers, not 'str'"))
  | _ => Raise (TypeError (apostrophe (type_name c)
                           ++ lit " object is not subscriptable"))
  end.

(** [c.get(k, default)]: only a dict has the method. *)
Definition py_get (c : value) (k : text) (default : value) : result value :=
  match c with
  | VDict d => Ok (get_default d k default)
  | _ => Raise (AttributeError (apostrophe (type_name c)
                                ++ lit " object has no attribute 'get'"))
  end.

(** Only a list and a dict have no hash. *)
Definition hashable (v : value) : bool :=
  match v with
  | VList _ | VDict _ => false
  | _ => true
  end.

Section Format.
(** [repr(v)] is a parameter: the shortest digits of a float and the
    quoting of nested strings are left to the interpreter. *)
Variable py_repr : value -> text.

(** [str(v)], as an f-string interpolates it. *)
Definition py_str (v : value) : text :=
  match v with
  | VStr s => s
  | _ => py_repr v
  end.
End Format.

End Operators.
Export Operators.

(** ** calculator_server.py *)

Module CalculatorServer.

Definition SERVER_NAME : text := lit "MCP Calculator Server".
Definition SERVER_VERSION : text := lit "1.0.0".

Record MCPTool := {
  id : text;
  name : text;
  description : text;
  handler : value -> result value
}.

Definition number_schema (desc : string) : value :=
  VDict [(lit "type", VStr (lit "number"));
         (lit "description", VStr (lit desc))].

Definition to_dict (t : MCPTool) : value :=
  VDict
    [(lit "id", VStr (id t));
     (lit "name", VStr (name t));
     (lit "description", VStr (description t));
     (lit "parameters_schema",
       VDict [(lit "type", VStr (lit "object"));
              (lit "properties",
                VDict [(lit "a", number_schema "First number");
                       (lit "b", number_schema "Second number")]);
              (lit "required", VList [VStr (lit "a"); VStr (lit "b")])]);
     (lit "return_schema", number_schema "The calculation result")].

(** The server object: its registry, keyed by tool id. *)
Record MCPCalculatorServer := {
  tools : list (text * MCPTool)
}.

Definition register_tool (self : MCPCalculatorServer)
    (tool_id name description : text) (handler : value -> result value)
  : MCPCalculatorServer :=
  {| tools := dict_set (tools self) tool_id
                {| id := tool_id; name := name; description := description;
                   handler := handler |} |}.

Definition missing_a_b : exn :=
  ValueError (lit "Missing required parameters: 'a' and 'b'").

(** The guard both handlers open with:
    [if "a" not in params or "b" not in params: raise ValueError(...)],
    then the two operands. *)
Definition operands (params : value) : result (value * value) :=
  match py_in (lit "a") params with
  | Raise e => Raise e
  | Ok false => Raise missing_a_b
  | Ok true =>
      match py_in (lit "b") params with
      | Raise e => Raise e
      | Ok false => Raise missing_a_b
      | Ok true =>
          match py_getitem params (lit "a") with
          | Raise e => Raise e
          | Ok a =>
              match py_getitem params (lit "b") with
              | Raise e => Raise e
              | Ok b => Ok (a, b)
              end
          end
      end
  end.

Definition add (params : value) : result value :=
  match operands params with
  | Raise e => Raise e
  | Ok (a, b) => py_add a b
  end.

Definition subtract (params : value) : result value :=
  match operands params with
  | Raise e => Raise e
  | Ok (a, b) => py_sub a b
  end.

(** [MCPCalculatorServer()] *)
Definition init : MCPCalculatorServer :=
  let self := {| tools := [] |} in
  let self := register_tool self (lit "calculator:add") (lit "add")
                (lit "Add two numbers together") add in
  register_tool self (lit "calculator:subtract") (lit "subtract")
    (lit "Subtract the second number from the first") subtract.

Definition handle_initialize : value :=
  VDict
    [(lit "protocolVersion", VStr (lit "1.0"));
     (lit "serverInfo",
       VDict [(lit "name", VStr SERVER_NAME);
              (lit "version", VStr SERVER_VERSION)]);
     (lit "capabilities",
       VDict [(lit "tools", VBool true);
              (lit "resources", VBool false);
              (lit "prompts", VBool false)])].

Definition handle_list_tools (self : MCPCalculatorServer) : value :=
  VList (map (fun kv => to_dict (snd kv)) (tools self)).

(** *** bytes.decode('utf-8') *)

Definition bytes := list byte.

Inductive utf8_state :=
| UStart
| UCont (more : nat) (acc lo hi : N).   (* [more] bytes to come after the
                                           next one, which lies in lo..hi *)

Definition utf8_step (st : utf8_state) (b : N)
  : option (option char * utf8_state) :=
  let within lo hi := N.leb lo b && N.leb b hi in
  let lead more acc lo hi := Some (None, UCont more acc lo hi) in
  (match st with
   | UStart =>
       if N.ltb b 128 then Some (Some b, UStart)
       else if within 194 223 then lead 0%nat (b - 192) 128 191
       else if N.eqb b 224 then lead 1%nat 0 160 191
       else if N.eqb b 237 then lead 1%nat 13 128 159
       else if within 225 239 then lead 1%nat (b - 224) 128 191
       else if N.eqb b 240 then lead 2%nat 0 144 191
       else if within 241 243 then lead 2%nat (b - 240) 128 191
       else if N.eqb b 244 then lead 2%nat 4 128 143
       else None
   | UCont more acc lo hi =>
       if within lo hi then
         let acc := acc * 64 + (b - 128) in
         match more with
         | O => Some (Some acc, UStart)
         | S more' => Some (None, UCont more' acc 128 191)
         end
       else None
   end)%N.

Fixpoint utf8_chars (st : utf8_state) (bs : bytes) : option text :=
  match bs with
  | [] => match st with UStart => Some [] | _ => None end
  | b :: bs' =>
      match utf8_step st (Byte.to_N b) with
      | Some (c, st') =>
          match utf8_chars st' bs', c with
          | Some s, Some c => Some (c :: s)
          | Some s, None => Some s
          | None, _ => None
          end
      | None => None
      end
  end.

Definition utf8_decode (bs : bytes) : result text :=
  match utf8_chars UStart bs with
  | Some s => Ok s
  | None => Raise (UnicodeDecodeError [])
  end.

Section Server.
Variable py_repr : value -> text.

(** [tool_id in self.tools] *)
Definition registered (self : MCPCalculatorServer) (tool_id : value)
  : result (option MCPTool) :=
  if hashable tool_id then
    match tool_id with
    | VStr k => Ok (dict_get (tools self) k)
    | _ => Ok None
    end
  else Raise (TypeError (lit "unhashable type: "
                         ++ apostrophe (type_name tool_id))).

Definition handle_execute_tool (self : MCPCalculatorServer)
    (params : value) : result value :=
  match py_get params (lit "tool_id") VNone with
  | Raise e => Raise e
  | Ok tool_id =>
      if negb (truthy tool_id) then
        Raise (ValueError (lit "Missing required parameter: tool_id"))
      else
        match registered self tool_id with
        | Raise e => Raise e
        | Ok None =>
            Raise (ValueError (lit "Unknown tool: "
                               ++ py_str py_repr tool_id))
        | Ok (Some tool) =>
            match py_get params (lit "parameters") (VDict []) with
            | Raise e => Raise e
            | Ok tool_params => handler tool tool_params
            end
        end
  end.

(** *** The request handler *)

(** An inbound POST: the Content-Length header as [int] reads it (0 when
    the header is absent) and the bytes the connection holds. *)
Record request := {
  content_length : Z;
  rfile : bytes
}.

(** [self.rfile.read(n)]: a negative count reads everything. *)
Definition read (n : Z) (s : bytes) : bytes :=
  if Z.ltb n 0 then s else firstn (Z.to_nat n) s.

Inductive response :=
| send_error (code : Z) (message : text)
| send_json_response (response_obj : value).

(** The methods of the server object a request reached. *)
Inductive call :=
| CallInitialize
| CallListTools
| CallExecuteTool (params : value).

Definition error_response (code : Z) (message : text) (request_id : value)
  : response :=
  send_json_response
    (VDict [(lit "jsonrpc", VStr (lit "2.0"));
            (lit "error", VDict [(lit "code", VInt code);
                                 (lit "message", VStr message)]);
            (lit "id", request_id)]).

Definition success_response (result : value) (request_id : value)
  : response :=
  send_json_response
    (VDict [(lit "jsonrpc", VStr (lit "2.0"));
            (lit "result", result);
            (lit "id", request_id)]).

(** [do_POST]: the calls made on the server object, and the response
    sent, or the exception that leaves the method. *)
Definition do_POST (server_instance : MCPCalculatorServer) (req : request)
  : list call * result response :=
  if Z.eqb (content_length req) 0 then
    ([], Ok (send_error 400 (lit "Missing request body")))
  else
    match utf8_decode (read (content_length req) (rfile req)) with
    | Raise e => ([], Raise e)
    | Ok request_body =>
    match json_loads request_body with
    | Raise (JSONDecodeError _) =>
        ([], Ok (send_error 400 (lit "Invalid JSON in request body")))
    | Raise e => ([], Raise e)
    | Ok request =>
        match py_get request (lit "jsonrpc") VNone with
        | Raise e => ([], Raise e)
        | Ok jsonrpc =>
        match py_get request (lit "method") VNone with
        | Raise e => ([], Raise e)
        | Ok method =>
        match py_get request (lit "params") (VDict []) with
        | Raise e => ([], Raise e)
        | Ok params =>
        match py_get request (lit "id") VNone with
        | Raise e => ([], Raise e)
        | Ok request_id =>
            if negb (eq_str jsonrpc (lit "2.0")) || negb (truthy method)
            then ([], Ok (error_response (-32600) (lit "Invalid Request")
                            request_id))
            else if eq_str method (lit "initialize") then
              ([CallInitialize],
               Ok (success_response handle_initialize request_id))
            else if eq_str method (lit "tools/list") then
              ([CallListTools],
               Ok (success_response (handle_list_tools server_instance)
                     request_id))
            else if eq_str method (lit "tools/execute") then
              ([CallExecuteTool params],
               match handle_execute_tool server_instance params with
               | Ok result => Ok (success_response result request_id)
               | Raise e =>
                   Ok (error_response (-32603)
                         (lit "Internal error: " ++ exn_str e) request_id)
               end)
            else
              ([], Ok (error_response (-32601)
                         (lit "Method not found: " ++ py_str py_repr method)
                         request_id))
        end end end end
    end end.
End Server.

End CalculatorServer.

(** ** llm_agent.py *)

Module Agent.

(** *** The five patterns of [_parse_tool_call] *)

Fixpoint cat (rs : list regex) : regex :=
  match rs with
  | [] => Eps
  | [r] => r
  | r :: rs' => Seq r (cat rs')
  end.

Definition NL : char := 10%N.
Definition LBRACE : char := 123%N.
Definition RBRACE : char := 125%N.
Definition COLON : char := 58%N.
Definition COMMA : char := 44%N.

Definition fence : text := lit "```".
Definition fence_json : text := fence ++ lit "json" ++ [NL].
Definition fence_bare : text := fence ++ [NL].
Definition fence_close : text := NL :: fence.

(** [r"```json\n(.*?)\n```"] with re.DOTALL *)
Definition json_block : regex :=
  cat [Str fence_json; Group (Lazy Any); Str fence_close].

(** [r"```\n(.*?)\n```"] with re.DOTALL *)
Definition bare_block : regex :=
  cat [Str fence_bare; Group (Lazy Any); Str fence_close].

(** [[^{}]] *)
Definition no_brace : regex := NotIn [LBRACE; RBRACE].

(** [\{[^{}]*\}] *)
Definition braces0 : regex := cat [Chr LBRACE; Star no_brace; Chr RBRACE].

(** [\{(?:[^{}]|(?:\{[^{}]*\}))*\}] *)
Definition braces1 : regex :=
  cat [Chr LBRACE; Star (Alt no_brace braces0); Chr RBRACE].

(** [(?:[^{}]|(?:\{(?:[^{}]|(?:\{[^{}]*\}))*\}))*] *)
Definition balanced : regex := Star (Alt no_brace braces1).

Definition quoted (s : string) : regex := Str (QUOTE :: lit s ++ [QUOTE]).

(** [json_pattern] *)
Definition json_pattern : regex :=
  cat [Chr LBRACE; balanced;
       quoted "tool"; Star Space; Chr COLON; Star Space;
       Chr QUOTE; Star (NotIn [QUOTE]); Chr QUOTE;
       balanced;
       quoted "parameters"; Star Space; Chr COLON; Star Space;
       Chr LBRACE; balanced; Chr RBRACE;
       balanced; Chr RBRACE].

(** [simple_pattern] *)
Definition simple_pattern : regex :=
  Group (cat [Chr LBRACE; Star Space;
              quoted "tool"; Star Space; Chr COLON; Star Space;
              Chr QUOTE; Plus (NotIn [QUOTE]); Chr QUOTE; Star Space;
              Chr COMMA; Star Space;
              quoted "parameters"; Star Space; Chr COLON; Star Space;
              Chr LBRACE; Plus (NotIn [RBRACE]); Chr RBRACE; Star Space;
              Chr RBRACE]).

(** *** _parse_tool_call *)

(** [isinstance(data, dict) and "tool" in data and "parameters" in data] *)
Definition is_tool_call (data : value) : option dict :=
  match data with
  | VDict d =>
      if dict_in (lit "tool") d && dict_in (lit "parameters") d
      then Some d else None
  | _ => None
  end.

(** The loop every method runs over its matches:
    [for json_text in json_matches: try: ... return data
     except json.JSONDecodeError: continue].
    [Ok None] is the loop running to its end. *)
Fixpoint first_call (json_matches : list text) : result (option dict) :=
  match json_matches with
  | [] => Ok None
  | json_text :: rest =>
      match json_loads json_text with
      | Ok data =>
          match is_tool_call data with
          | Some d => Ok (Some d)
          | None => first_call rest
          end
      | Raise (JSONDecodeError _) => first_call rest
      | Raise e => Raise e
      end
  end.

(** A method that found nothing hands over to the next one. *)
Definition or_else (r : result (option dict))
    (next : result (option dict)) : result (option dict) :=
  match r with
  | Ok None => next
  | _ => r
  end.

Definition _parse_tool_call (text : text) : result (option dict) :=
  (* Method 1 *)
  or_else (first_call (findall json_block text))
  (* Method 2 *)
  (or_else (first_call (findall bare_block text))
  (* Method 3 *)
  (or_else (first_call [text])
  (* Method 4 *)
  (or_else (first_call (findall json_pattern text))
  (* Method 5 *)
  (or_else (first_call (findall simple_pattern text))
  (Ok None))))).

(** *** The conversation *)

Inductive Role := system | user | assistant.

Record Message := {
  role : Role;
  content : text
}.

(** An entry of the catalog [tools/list] returned: [MCPTool.to_dict]
    gives each one a string id and a string name. *)
Record Tool := {
  id : text;
  name : text
}.

(** What the agent sent out. *)
Inductive event :=
| Completion (messages : list Message)          (* _get_llm_response *)
| Execute (tool_id : text) (parameters : value). (* _execute_tool *)

(** The agent and its surroundings.  The completion endpoint and the MCP
    server answer from outside: [mcp_replies] holds, in order, what the
    coming [tools/execute] requests will get, a result or the exception
    [_send_mcp_request] raises. *)
Record state := {
  tools : list Tool;
  messages : list Message;
  mcp_replies : list (result value);
  sent : list event
}.

Definition append (st : state) (r : Role) (c : text) : state :=
  {| tools := tools st;
     messages := messages st ++ [{| role := r; content := c |}];
     mcp_replies := mcp_replies st;
     sent := sent st |}.

Definition send (st : state) (e : event) : state :=
  {| tools := tools st; messages := messages st;
     mcp_replies := mcp_replies st; sent := sent st ++ [e] |}.

Definition set_mcp_replies (st : state) (l : list (result value)) : state :=
  {| tools := tools st; messages := messages st;
     mcp_replies := l; sent := sent st |}.

(** How a call of the loop ends.  [rest] is what the completion endpoint
    has yet to answer; [Pending]: a request is out and its answer has not
    come. *)
Inductive outcome :=
| Returned (response : text) (rest : list (result text)) (st : state)
| Raised (e : exn) (rest : list (result text)) (st : state)
| Pending (st : state).

Definition final_state (o : outcome) : state :=
  match o with
  | Returned _ _ st | Raised _ _ st | Pending st => st
  end.

(** [for tool in self.tools: if tool["name"] == tool_name: ... break] *)
Fixpoint find_tool_id (tools : list Tool) (tool_name : value)
  : option text :=
  match tools with
  | [] => None
  | tool :: rest =>
      if eq_str tool_name (name tool) then Some (id tool)
      else find_tool_id rest tool_name
  end.

Section Loop.
Variable py_repr : value -> text.

(** [_execute_tool(tool_id, parameters)] *)
Definition _execute_tool (tool_id : text) (parameters : value) (st : state)
  : option (result value) * state :=
  let st := send st (Execute tool_id parameters) in
  match mcp_replies st with
  | [] => (None, st)
  | r :: rest => (Some r, set_mcp_replies st rest)
  end.

(** The closing moves both error branches share:
    [final_response = await self._get_llm_response()], then the append
    and the return. *)
Definition final_response (llm : list (result text)) (st : state)
  : outcome :=
  let st := send st (Completion (messages st)) in
  match llm with
  | [] => Pending st
  | Raise e :: rest => Raised e rest st
  | Ok final_response :: rest =>
      Returned final_response rest (append st assistant final_response)
  end.

(** [except Exception as e:] around the execution and the recursive
    call. *)
Definition on_exception (tool_name : value) (o : outcome) : outcome :=
  match o with
  | Raised e rest st =>
      let error_message := lit "Error executing tool: " ++ exn_str e in
      final_response rest
        (append st system
           (lit "Error executing tool '" ++ py_str py_repr tool_name
            ++ lit "': " ++ error_message))
  | _ => o
  end.

(** [llm]: what the coming completion requests will get, in order, the
    text of the model or the exception [_get_llm_response] raises. *)
Fixpoint _process_llm_response (llm : list (result text)) (st : state)
  : outcome :=
  let st := send st (Completion (messages st)) in
  match llm with
  | [] => Pending st
  | Raise e :: rest => Raised e rest st
  | Ok llm_response :: rest =>
      match _parse_tool_call llm_response with
      | Raise e => Raised e rest st
      | Ok (Some ((_ :: _) as tool_call)) =>     (* [if tool_call:] *)
          let tool_name := get tool_call (lit "tool") in
          let parameters :=
            get_default tool_call (lit "parameters") (VDict []) in
          let st := append st assistant llm_response in
          match find_tool_id (tools st) tool_name with
          | Some ((_ :: _) as tool_id) =>            (* [if tool_id:] *)
              on_exception tool_name
                match _execute_tool tool_id parameters st with
                | (None, st) => Pending st
                | (Some (Raise e), st) => Raised e rest st
                | (Some (Ok result), st) =>
                    _process_llm_response rest
                      (append st system
                         (lit "Tool result: " ++ py_str py_repr result))
                end
          | _ =>
              final_response rest
                (append st system
                   (lit "Unknown tool '" ++ py_str py_repr tool_name
                    ++ lit "'. Available tools: "
                    ++ join (lit ", ") (map name (tools st))))
          end
      | Ok _ =>
          Returned llm_response rest (append st assistant llm_response)
      end
  end.

Definition process_user_input (user_input : text)
    (llm : list (result text)) (st : state) : outcome :=
  _process_llm_response llm (append st user user_input).
End Loop.

End Agent.

(** ** The extractor, as the specification words it *)

Module ExtractorSpec.
Import Agent.


(** A candidate counts when it parses as a JSON object holding both keys. *)
Definition tool_call_of (candidate : text) : option dict :=
  match json_loads candidate with
  | Ok data => is_tool_call data
  | Raise _ => None
  end.

Fixpoint first_some {A B : Type} (f : A -> option B) (l : list A)
  : option B :=
  match l with
  | [] => None
  | x :: l' =>
      match f x with
      | Some y => Some y
      | None => first_some f l'
      end
  end.



End ExtractorSpec.

(** ** The conversation loop, as the specification words it *)

Module LoopSpec.
Import Agent.

(** The history of [st'] is that of [st] with messages added at its end:
    nothing before them is touched or moved. *)
Definition grows (st st' : state) : Prop :=
  exists added, messages st' = messages st ++ added.

(** One round of successful tool use: the reply of the model, the call
    the extractor finds in it, the id the call resolves to, and what the
    server returns. *)
Record tool_step := {
  reply : text;
  call : dict;
  resolved : text;
  output : value
}.

Definition step_ok (tools : list Tool) (s : tool_step) : Prop :=
  _parse_tool_call (reply s) = Ok (Some (call s))
  /\ find_tool_id tools (get (call s) (lit "tool")) = Some (resolved s)
  /\ resolved s <> [].

Definition msg (r : Role) (c : text) : Message :=
  {| role := r; content := c |}.

Section Steps.
Variable py_repr : value -> text.

Definition tool_result (v : value) : text :=
  lit "Tool result: " ++ py_str py_repr v.

Definition unknown_tool (tools : list Tool) (tool_name : value) : text :=
  lit "Unknown tool '" ++ py_str py_repr tool_name
  ++ lit "'. Available tools: " ++ join (lit ", ") (map name tools).

Definition tool_error (tool_name : value) (e : exn) : text :=
  lit "Error executing tool '" ++ py_str py_repr tool_name ++ lit "': "
  ++ lit "Error executing tool: " ++ exn_str e.

(** The state one successful round leaves. *)
Definition after_step (st : state) (s : tool_step) : state :=
  {| tools := tools st;
     messages := messages st
                 ++ [msg assistant (reply s);
                     msg system (tool_result (output s))];
     mcp_replies := tl (mcp_replies st);
     sent := sent st
             ++ [Completion (messages st);
                 Execute (resolved s)
                   (get_default (call s) (lit "parameters") (VDict []))] |}.

Definition after_steps (st : state) (steps : list tool_step) : state :=
  fold_left after_step steps st.
End Steps.

Definition is_raised (o : outcome) : bool :=
  match o with Raised _ _ _ => true | _ => false end.

End LoopSpec.

(** ** The faults, as the specification names them *)

Module Faults.
Import CalculatorServer.

(** UnknownTool: the tool id is not in the registry. *)
Definition UnknownTool (py_repr : value -> text) (tool_id : value) : exn :=
  ValueError (lit "Unknown tool: " ++ py_str py_repr tool_id).

(** MissingParameter: "a" or "b" is absent. *)
Definition MissingParameter : exn := missing_a_b.


End Faults.

(** ** Sample inputs *)

Module Samples.
Import Agent.

(** The call the system prompt shows, laid out as it shows it. *)
Definition add_call_text : text :=
  jq "{" ++ [NL] ++ jq "  'tool': 'add'," ++ [NL]
  ++ jq "  'parameters': {" ++ [NL] ++ jq "    'a': 5," ++ [NL]
  ++ jq "    'b': 10" ++ [NL] ++ jq "  }" ++ [NL] ++ jq "}".

Definition add_call : dict :=
  [(lit "tool", VStr (lit "add"));
   (lit "parameters", VDict [(lit "a", VInt 5); (lit "b", VInt 10)])].

Definition subtract_call_text : text :=
  jq "{'tool': 'subtract', 'parameters': {'a': 15, 'b': 3}}".

Definition subtract_call : dict :=
  [(lit "tool", VStr (lit "subtract"));
   (lit "parameters", VDict [(lit "a", VInt 15); (lit "b", VInt 3)])].

Definition fenced (body : text) : text := fence_json ++ body ++ fence_close.

(** Prose around one fenced call. *)
Definition step_a_prose : text := lit "Step a: I will add 5 and 10" ++ [NL].
Definition step_a : text := step_a_prose ++ fenced add_call_text ++ [NL].

(** Prose that itself quotes a fenced call before the one embedded. *)
Definition quoting_prose : text :=
  lit "Earlier I ran" ++ [NL] ++ fenced subtract_call_text ++ [NL]
  ++ lit "and now" ++ [NL].

(** [repr] on what the examples format: None, a bool, an int, a string
    free of quotes and escapes.  Nothing else is formatted there; it shows
    as an ellipsis. *)
Definition sample_repr (v : value) : text :=
  match v with
  | VNone => lit "None"
  | VBool true => lit "True"
  | VBool false => lit "False"
  | VInt z => lit (NilZero.string_of_int (Z.to_int z))
  | VStr s => apostrophe s
  | _ => lit "..."
  end.

(** The [params] of a tools/execute request. *)
Definition execute_params (tool_id parameters : value) : value :=
  VDict [(lit "tool_id", tool_id); (lit "parameters", parameters)].

Definition ADD : value := VStr (lit "calculator:add").
Definition SUBTRACT : value := VStr (lit "calculator:subtract").

Definition a_b (a b : value) : value :=
  VDict [(lit "a", a); (lit "b", b)].

(** 1.5, as the decoder reads it. *)
Definition one_and_a_half : float := S754_finite false 6755399441055744 (-52).



(** The session of the specification: "What is 5+10-3?". *)
Definition catalog : list Tool :=
  [ {| id := lit "calculator:add"; name := lit "add" |};
    {| id := lit "calculator:subtract"; name := lit "subtract" |} ].

Definition session (replies : list (result value)) : state :=
  {| tools := catalog;
     messages := [LoopSpec.msg system (lit "You are a helpful assistant");
                  LoopSpec.msg user (lit "What is 5+10-3?")];
     mcp_replies := replies;
     sent := [] |}.


Definition final_answer : text := lit "The result of 5+10-3 is 12.".

Definition round_a : LoopSpec.tool_step :=
  {| LoopSpec.reply := step_a; LoopSpec.call := add_call;
     LoopSpec.resolved := lit "calculator:add";
     LoopSpec.output := VInt 15 |}.


(** A reply that calls a tool the catalog does not list. *)
Definition multiply_reply : text :=
  jq "{'tool': 'multiply', 'parameters': {'a': 2, 'b': 3}}".

Definition multiply_call : dict :=
  [(lit "tool", VStr (lit "multiply"));
   (lit "parameters", VDict [(lit "a", VInt 2); (lit "b", VInt 3)])].

(** A reply whose first fenced block lacks the "parameters" key. *)
Definition two_blocks : text :=
  lit "First" ++ [NL] ++ fenced (jq "{'tool': 'add'}") ++ [NL]
  ++ lit "then" ++ [NL] ++ fenced subtract_call_text.

(** A call inside a fence that has no tag, and one in running prose. *)
Definition bare_fenced : text :=
  lit "Calling:" ++ [NL] ++ fence_bare ++ subtract_call_text ++ fence_close.
Definition inline_call : text :=
  lit "I will call " ++ subtract_call_text ++ lit " now.".

(** Request bodies. *)
Definition array_body : text := lit "[]".
Definition add_body : text :=
  jq "{'jsonrpc': '2.0', 'method': 'tools/execute', 'params': {'tool_id': 'calculator:add', 'parameters': {'a': 5, 'b': 10}}, 'id': 'exec-calculator:add'}".
Definition unknown_method_body : text :=
  jq "{'jsonrpc': '2.0', 'method': 'tools/call', 'id': 3}".
Definition no_marker_body : text :=
  jq "{'method': 'tools/list', 'id': 4}".
Definition multiply_body : text :=
  jq "{'jsonrpc': '2.0', 'method': 'tools/execute', 'params': {'tool_id': 'calculator:multiply', 'parameters': {'a': 2, 'b': 3}}, 'id': 7}".

(** The bytes of a text of ASCII characters. *)
Definition ascii_bytes (s : text) : CalculatorServer.bytes :=
  map (fun c => match Byte.of_N c with Some b => b | None => x00 end) s.

(** A POST whose header counts the whole body. *)
Definition post_bytes (body : CalculatorServer.bytes)
  : CalculatorServer.request :=
  {| CalculatorServer.content_length := Z.of_nat (length body);
     CalculatorServer.rfile := body |}.

Definition post (body : text) : CalculatorServer.request :=
  post_bytes (ascii_bytes body).

(** A body that is no UTF-8 text. *)
Definition latin1_body : CalculatorServer.bytes := [x22; xe9; x22].

End Samples.

(** ** Building a registry *)

Module Registry.
Import CalculatorServer.

(** One call of [register_tool], by its arguments. *)
Record registration := {
  reg_id : text;
  reg_name : text;
  reg_description : text;
  reg_handler : value -> result value
}.

Definition tool_of (r : registration) : MCPTool :=
  {| id := reg_id r; name := reg_name r; description := reg_description r;
     handler := reg_handler r |}.

Definition register (self : MCPCalculatorServer) (r : registration)
  : MCPCalculatorServer :=
  register_tool self (reg_id r) (reg_name r) (reg_description r)
    (reg_handler r).

(** A server of which [register_tool] was called for each of [rs], in
    order, starting with no tool. *)
Definition register_all (rs : list registration) : MCPCalculatorServer :=
  fold_left register rs {| tools := [] |}.

Definition keys (self : MCPCalculatorServer) : list text :=
  map fst (tools self).

End Registry.

(** ** llm_agent.py: the requests and what is read of the answers *)

Module Client.
Import Agent.

(** [v[0]] *)
Definition py_first (v : value) : result value :=
  match v with
  | VList (x :: _) => Ok x
  | VList [] => Raise (Exception (lit "list index out of range"))
  | VStr (c :: _) => Ok (VStr [c])
  | VStr [] => Raise (Exception (lit "string index out of range"))
  | VDict _ => Raise (KeyError (lit "0"))
  | _ => Raise (TypeError (apostrophe (type_name v)
                           ++ lit " object is not subscriptable"))
  end.

(** [_get_llm_response], from [data = response.json()] on:
    [data.get("choices", [{}])[0].get("message", {})], then
    [message.get("content", "")]. *)
Definition message_content (data : value) : result value :=
  match py_get data (lit "choices") (VList [VDict []]) with
  | Raise e => Raise e
  | Ok choices =>
      match py_first choices with
      | Raise e => Raise e
      | Ok choice =>
          match py_get choice (lit "message") (VDict []) with
          | Raise e => Raise e
          | Ok message => py_get message (lit "content") (VStr [])
          end
      end
  end.

(** The two handlers around it: the inner [except Exception] and the
    outer one each raise a new [Exception] that quotes the one caught. *)
Definition completion_of (data : value) : result value :=
  match message_content data with
  | Ok content => Ok content
  | Raise e =>
      Raise (Exception
               (lit "Failed to communicate with LLM API: "
                ++ lit "Unexpected error when calling LLM API: "
                ++ exn_str e))
  end.

Section Transport.
Variable py_repr : value -> text.

(** [_send_mcp_request], from [data = response.json()] on. *)
Definition result_of (data : value) : result value :=
  match py_in (lit "error") data with
  | Raise e => Raise e
  | Ok true =>
      match py_getitem data (lit "error") with
      | Raise e => Raise e
      | Ok error =>
          match py_get error (lit "message") VNone with
          | Raise e => Raise e
          | Ok message =>
              match py_get error (lit "code") VNone with
              | Raise e => Raise e
              | Ok code =>
                  Raise (Exception
                           (lit "MCP server error: " ++ py_str py_repr message
                            ++ lit " (code: " ++ py_str py_repr code
                            ++ lit ")"))
              end
          end
      end
  | Ok false => py_get data (lit "result") (VDict [])
  end.

(** [initialize_connection], from the answer on: the name of the server
    is read for the log, and the answer returned. *)
Definition initialize_connection (data : value) : result value :=
  match result_of data with
  | Raise e => Raise e
  | Ok response =>
      match py_get response (lit "serverInfo") (VDict []) with
      | Raise e => Raise e
      | Ok info =>
          match py_get info (lit "name") (VStr (lit "Unknown")) with
          | Raise e => Raise e
          | Ok _ => Ok response
          end
      end
  end.
End Transport.

(** The requests [initialize_connection] and [discover_tools] build. *)
Definition initialize_request : value :=
  VDict [(lit "jsonrpc", VStr (lit "2.0"));
         (lit "method", VStr (lit "initialize"));
         (lit "params",
           VDict [(lit "protocolVersion", VStr (lit "1.0"));
                  (lit "clientInfo",
                    VDict [(lit "name", VStr (lit "LLM Agent"));
                           (lit "version", VStr (lit "1.0.0"))]);
                  (lit "capabilities",
                    VDict [(lit "tools", VBool true);
                           (lit "resources", VBool false);
                           (lit "prompts", VBool false)])]);
         (lit "id", VStr (lit "init-1"))].

Definition list_request : value :=
  VDict [(lit "jsonrpc", VStr (lit "2.0"));
         (lit "method", VStr (lit "tools/list"));
         (lit "params", VDict []);
         (lit "id", VStr (lit "list-1"))].

(** The request [_execute_tool] builds. *)
Definition execute_request (tool_id : text) (parameters : value) : value :=
  VDict [(lit "jsonrpc", VStr (lit "2.0"));
         (lit "method", VStr (lit "tools/execute"));
         (lit "params",
           VDict [(lit "tool_id", VStr tool_id);
                  (lit "parameters", parameters)]);
         (lit "id", VStr (lit "exec-" ++ tool_id))].

End Client.

(** ** llm_agent.py: the catalog put into words *)

Module Prompt.
Import Agent.

(** [for x in v] *)
Definition py_iter (v : value) : result (list value) :=
  match v with
  | VList l => Ok l
  | VDict d => Ok (map (fun kv => VStr (fst kv)) d)
  | VStr s => Ok (map (fun c => VStr [c]) s)
  | _ => Raise (TypeError (apostrophe (type_name v)
                           ++ lit " object is not iterable"))
  end.

(** [v.items()] *)
Definition py_items (v : value) : result (list (text * value)) :=
  match v with
  | VDict d => Ok d
  | _ => Raise (AttributeError (apostrophe (type_name v)
                                ++ lit " object has no attribute 'items'"))
  end.

Section Format.
Variable py_repr : value -> text.

(** The line of one parameter. *)
Definition format_param (required : value) (param_name : text)
    (param_info : value) : result text :=
  match py_in param_name required with
  | Raise e => Raise e
  | Ok is_required =>
      match py_get param_info (lit "description")
              (VStr (lit "No description")) with
      | Raise e => Raise e
      | Ok description =>
          match py_get param_info (lit "type") (VStr (lit "any")) with
          | Raise e => Raise e
          | Ok type =>
              Ok (lit "  - " ++ param_name
                  ++ (if is_required then lit " (required)" else [])
                  ++ lit ": " ++ py_str py_repr description
                  ++ lit " (type: " ++ py_str py_repr type ++ lit ")"
                  ++ [NL])
          end
      end
  end.

(** [for param_name, param_info in properties.items(): ... desc += ...] *)
Fixpoint format_params (required : value) (items : list (text * value))
    (desc : text) : result text :=
  match items with
  | [] => Ok desc
  | (param_name, param_info) :: rest =>
      match format_param required param_name param_info with
      | Raise e => Raise e
      | Ok param_desc => format_params required rest (desc ++ param_desc)
      end
  end.

(** The body of the loop over the tools. *)
Definition format_tool (tool : value) : result text :=
  match py_getitem tool (lit "name") with
  | Raise e => Raise e
  | Ok name =>
  match py_getitem tool (lit "description") with
  | Raise e => Raise e
  | Ok description =>
      let desc :=
        lit "Tool: " ++ py_str py_repr name ++ [NL]
        ++ lit "Description: " ++ py_str py_repr description ++ [NL]
        ++ lit "Parameters:" ++ [NL] in
      match py_in (lit "parameters_schema") tool with
      | Raise e => Raise e
      | Ok false => Ok desc
      | Ok true =>
      match py_getitem tool (lit "parameters_schema") with
      | Raise e => Raise e
      | Ok schema =>
      match py_in (lit "properties") schema with
      | Raise e => Raise e
      | Ok false => Ok desc
      | Ok true =>
      match py_getitem schema (lit "properties") with
      | Raise e => Raise e
      | Ok properties =>
      match py_get schema (lit "required") (VList []) with
      | Raise e => Raise e
      | Ok required =>
      match py_items properties with
      | Raise e => Raise e
      | Ok items => format_params required items desc
      end end end end end end
  end end.

Fixpoint format_each (tools : list value) : result (list text) :=
  match tools with
  | [] => Ok []
  | tool :: rest =>
      match format_tool tool with
      | Raise e => Raise e
      | Ok desc =>
          match format_each rest with
          | Raise e => Raise e
          | Ok descriptions => Ok (desc :: descriptions)
          end
      end
  end.

(** [_format_tools_for_llm], of [self.tools] *)
Definition _format_tools_for_llm (tools : value) : result text :=
  match py_iter tools with
  | Raise e => Raise e
  | Ok l =>
      match format_each l with
      | Raise e => Raise e
      | Ok descriptions => Ok (join [NL] descriptions)
      end
  end.

(** The text [discover_tools] puts around the descriptions. *)
Definition line (s : string) : text := lit s ++ [NL].
Definition qline (s : string) : text := jq s ++ [NL].

Definition prompt_head : text :=
  line "You are a helpful assistant with access to the following tools:"
  ++ [NL].

Definition call_block (tool : string) (a b : text) : text :=
  line "```json"
  ++ line "{"
  ++ jq "  'tool': '" ++ lit tool ++ jq "'," ++ [NL]
  ++ qline "  'parameters': {"
  ++ a ++ lit "," ++ [NL]
  ++ b ++ [NL]
  ++ line "  }"
  ++ line "}"
  ++ line "```" ++ [NL].

Definition prompt_tail : text :=
  [NL; NL]
  ++ line "To use a tool, include a JSON block anywhere in your response like this:"
  ++ call_block "tool_name" (jq "    'param1': value1")
       (jq "    'param2': value2")
  ++ line "IMPORTANT RULES:"
  ++ line "1. You can explain your reasoning, but ALWAYS use tools for operations - NEVER perform calculations yourself"
  ++ line "2. Use ONE tool call per response"
  ++ line "3. After receiving a tool result, ALWAYS make the next tool call if more operations remain"
  ++ line "4. Only provide a final answer after ALL operations have been performed using tools"
  ++ [NL]
  ++ line "For multi-step tasks:"
  ++ line "1. First explain which step you're on and what you're doing (e.g., 'Step 1: I'll add these numbers')"
  ++ line "2. Then include the JSON block to call the appropriate tool"
  ++ line "3. For each step, explain what you're doing and why"
  ++ line "4. Only provide a final answer when the entire task is complete"
  ++ [NL]
  ++ line "For example, to calculate '5+10-3':"
  ++ line "Step a: I'll add 5 and 10"
  ++ call_block "add" (jq "    'a': 5") (jq "    'b': 10")
  ++ line "After receiving result 15:"
  ++ line "Step b: Now I'll subtract 3 from the result 15"
  ++ call_block "subtract" (jq "    'a': 15") (jq "    'b': 3")
  ++ line "After receiving result 12:"
  ++ line "The result of 5+10-3 is 12."
  ++ [NL]
  ++ lit "Remember to use tools for EVERY operation, no matter how simple it seems.".

Definition system_prompt_of (tools_description : text) : text :=
  prompt_head ++ tools_description ++ prompt_tail.

(** The fields of the agent [discover_tools] assigns. *)
Record LLMAgent := {
  tools : value;
  messages : list Message;
  system_prompt : text
}.

(** [discover_tools], given what [_send_mcp_request] returns or raises:
    the agent it leaves, and what it returns or raises. *)
Definition discover_tools (reply : result value) (self : LLMAgent)
  : LLMAgent * result value :=
  match reply with
  | Raise e => (self, Raise e)
  | Ok tools =>
      let self := {| tools := tools; messages := messages self;
                     system_prompt := system_prompt self |} in
      match _format_tools_for_llm tools with
      | Raise e => (self, Raise e)
      | Ok tools_description =>
          let system_prompt := system_prompt_of tools_description in
          ({| tools := tools;
              messages := [{| role := system; content := system_prompt |}];
              system_prompt := system_prompt |},
           Ok tools)
      end
  end.
End Format.

End Prompt.

(** ** What the prompt is expected to say *)

Module PromptSpec.
Import CalculatorServer.

(** The entry of a tool of the calculator: its name, its description
    and the two operands, both required. *)
Definition entry (t : MCPTool) : text :=
  lit "Tool: " ++ name t ++ [Agent.NL]
  ++ lit "Description: " ++ description t ++ [Agent.NL]
  ++ lit "Parameters:" ++ [Agent.NL]
  ++ lit "  - a (required): First number (type: number)" ++ [Agent.NL]
  ++ lit "  - b (required): Second number (type: number)" ++ [Agent.NL].

(** The first three lines of an entry. *)
Definition heading (name description : text) : text :=
  lit "Tool: " ++ name ++ [Agent.NL]
  ++ lit "Description: " ++ description ++ [Agent.NL]
  ++ lit "Parameters:" ++ [Agent.NL].

(** The call the prompt shows for step a of its example. *)
Definition example_call : dict :=
  [(lit "tool", VStr (lit "add"));
   (lit "parameters", VDict [(lit "a", VInt 5); (lit "b", VInt 10)])].

Definition BACKTICK : char := 96%N.

End PromptSpec.

(** ** More requests, answers and descriptors to run *)

Module Cases.
Import Agent.

(** The bodies of the two requests that open a session. *)
Definition initialize_body : text :=
  jq "{'jsonrpc': '2.0', 'method': 'initialize', 'params': {'protocolVersion': '1.0', 'clientInfo': {'name': 'LLM Agent', 'version': '1.0.0'}, 'capabilities': {'tools': true, 'resources': false, 'prompts': false}}, 'id': 'init-1'}".
Definition list_body : text :=
  jq "{'jsonrpc': '2.0', 'method': 'tools/list', 'params': {}, 'id': 'list-1'}".

(** What two of the bodies of [Samples] decode to. *)
Definition unknown_method_request : dict :=
  [(lit "jsonrpc", VStr (lit "2.0"));
   (lit "method", VStr (lit "tools/call"));
   (lit "id", VInt 3)].

(** A tools/execute request whose params is a string. *)
Definition string_params_body : text :=
  jq "{'jsonrpc': '2.0', 'method': 'tools/execute', 'params': 'calculator:add', 'id': 9}".
Definition string_params_request : dict :=
  [(lit "jsonrpc", VStr (lit "2.0"));
   (lit "method", VStr (lit "tools/execute"));
   (lit "params", VStr (lit "calculator:add"));
   (lit "id", VInt 9)].

(** The params of a tools/execute request that gives no parameters. *)
Definition bare_params : dict := [(lit "tool_id", Samples.ADD)].

(** Bytes of a next request behind those of the first. *)
Definition pipelined : CalculatorServer.bytes :=
  Samples.ascii_bytes (lit "POST / HTTP/1.1").

(** An answer that carries a result and a null error. *)
Definition null_error_answer : dict :=
  [(lit "jsonrpc", VStr (lit "2.0"));
   (lit "result", VInt 15);
   (lit "error", VNone);
   (lit "id", VStr (lit "exec-calculator:add"))].

(** Descriptors: the one of add, one without a schema, one without a
    description. *)
Definition add_tool : CalculatorServer.MCPTool :=
  {| CalculatorServer.id := lit "calculator:add";
     CalculatorServer.name := lit "add";
     CalculatorServer.description := lit "Add two numbers together";
     CalculatorServer.handler := CalculatorServer.add |}.
Definition echo_descriptor : dict :=
  [(lit "name", VStr (lit "echo"));
   (lit "description", VStr (lit "Say it again"))].
Definition nameless_descriptor : value :=
  VDict [(lit "name", VStr (lit "echo"))].

(** The agent as [__init__] leaves it. *)
Definition fresh_agent : Prompt.LLMAgent :=
  {| Prompt.tools := VList []; Prompt.messages := [];
     Prompt.system_prompt := [] |}.

Definition greeting : text := lit "What is 5+10-3?".
Definition timeout : exn := Exception (lit "LLM API request failed: timed out").

End Cases.

(** ** Reading without braces *)

Module ScanSpec.
Import Agent.

(** A fenced block, behind either opening fence: [json_block] and
    [bare_block] are the two of them. *)
Definition block (opening : text) : regex :=
  cat [Str opening; Group (Lazy Any); Str fence_close].




End ScanSpec.

(** ** What a turn leaves of its surroundings *)

Module SessionSpec.
Import Agent.

(** From [st] to [st']: the catalog is the same, the replies of the MCP
    server are used from the front, and requests are only added to those
    sent. *)
Definition advances (st st' : state) : Prop :=
  tools st' = tools st
  /\ (exists used, mcp_replies st = used ++ mcp_replies st')
  /\ (exists new, sent st' = sent st ++ new).

Definition is_ok {A : Type} (r : result A) : bool :=
  match r with Ok _ => true | Raise _ => false end.

End SessionSpec.

(** * Properties *)

Module TextFacts.

Lemma text_eqb_refl (a : text) : text_eqb a a = true.
Proof.
  induction a as [|x a IH]; simpl; [reflexivity|].
  now rewrite N.eqb_refl.
Qed.

Lemma text_eqb_eq (a b : text) : text_eqb a b = true <-> a = b.
Proof.
  split; [|intros ->; apply text_eqb_refl].
  revert b; induction a as [|x a IH]; intros [|y b]; simpl;
    try discriminate; [reflexivity|].
  intros H; apply andb_true_iff in H as [Hx Hr].
  apply N.eqb_eq in Hx; subst; f_equal; auto.
Qed.

Lemma strip_prefix_app (p s : text) : strip_prefix p (p ++ s) = Some s.
Proof.
  induction p as [|x p IH]; simpl; [reflexivity|].
  now rewrite N.eqb_refl.
Qed.

Lemma strip_prefix_Some (p s r : text) :
  strip_prefix p s = Some r -> s = p ++ r.
Proof.
  revert s; induction p as [|x p IH]; intros s; simpl.
  - now intros [= ->].
  - destruct s as [|y s]; [discriminate|].
    destruct (N.eqb_spec x y); [|discriminate].
    intros H; subst; f_equal; auto.
Qed.

Lemma contains_cons_false (p : text) (c : char) (s : text) :
  contains p (c :: s) = false ->
  strip_prefix p (c :: s) = None /\ contains p s = false.
Proof.
  cbn [contains].
  destruct (strip_prefix p (c :: s)); [discriminate|auto].
Qed.

End TextFacts.
Import TextFacts.

Module ExtractorFacts.
Import Agent ExtractorSpec.

(** Decoding raises nothing but the decode error. *)
Lemma json_loads_cases (s : text) :
  (exists v, json_loads s = Ok v) \/ json_loads s = Raise (JSONDecodeError []).
Proof.
  unfold json_loads; destruct (decode s); eauto.
Qed.

(** The loop over the matches of one method never raises, and yields the
    first candidate that counts. *)
Lemma first_call_spec (l : list text) :
  first_call l = Ok (first_some tool_call_of l).
Proof.
  induction l as [|c l IH]; simpl; [reflexivity|].
  unfold tool_call_of at 1.
  destruct (json_loads_cases c) as [[v ->] | ->].
  - destruct (is_tool_call v); auto.
  - exact IH.
Qed.

Lemma is_tool_call_keys (v : value) (d : dict) :
  is_tool_call v = Some d ->
  v = VDict d /\ dict_in (lit "tool") d = true
  /\ dict_in (lit "parameters") d = true.
Proof.
  destruct v; simpl; try discriminate.
  destruct (dict_in (lit "tool") d0) eqn:Ht; simpl; [|discriminate].
  destruct (dict_in (lit "parameters") d0) eqn:Hp; [|discriminate].
  intros [= ->]; auto.
Qed.

Lemma first_some_keys (l : list text) (d : dict) :
  first_some tool_call_of l = Some d ->
  dict_in (lit "tool") d = true /\ dict_in (lit "parameters") d = true.
Proof.
  induction l as [|c l IH]; simpl; [discriminate|].
  destruct (tool_call_of c) as [d'|] eqn:E; [|exact IH].
  intros [= ->]. unfold tool_call_of in E.
  destruct (json_loads c); [|discriminate].
  now apply is_tool_call_keys in E.
Qed.




End ExtractorFacts.

(** ** A fenced block is found again *)

Module FenceFacts.
Import Agent ExtractorSpec ExtractorFacts.

(** After a line feed the lexer is between tokens, if it has not failed. *)
Lemma lex_step_newline (st st' : lex_state) (ts : list token) :
  lex_step st NL = Some (ts, st') -> st' = LStart.
Proof.
  destruct st as [|acc|ph n|acc|acc|acc k v]; cbn; try congruence.
  - unfold flush_then_start.
    destruct (lex_flush (LWord acc)); cbn; congruence.
  - destruct ph; try congruence; unfold flush_then_start; cbn; congruence.
Qed.

(** No document has a backtick at the start of a line. *)
Lemma lex_newline_backtick (x y : text) (st : lex_state) :
  lex st (x ++ NL :: 96%N :: y) = None.
Proof.
  revert st; induction x as [|c x IH]; intros st.
  - cbn [app lex].
    destruct (lex_step st NL) as [[ts st']|] eqn:E; [|reflexivity].
    apply lex_step_newline in E; subst st'. reflexivity.
  - cbn [app lex].
    destruct (lex_step st c) as [[ts st']|]; [|reflexivity].
    now rewrite IH.
Qed.

Lemma decode_newline_backtick (x y : text) :
  decode (x ++ NL :: 96%N :: y) = None.
Proof. unfold decode. now rewrite lex_newline_backtick. Qed.

(** A literal matches as a prefix. *)
Lemma rmatch_Str (R : Type) (p s : text) (cap : option text)
    (k : text -> option text -> option R) :
  rmatch (Str p) s cap k =
  match strip_prefix p s with
  | Some r => k r cap
  | None => None
  end.
Proof.
  revert s; induction p as [|c p IH]; intros s; [reflexivity|].
  destruct s as [|x s]; [reflexivity|].
  cbn [Str rmatch strip_prefix].
  rewrite (N.eqb_sym x c).
  destruct (N.eqb c x); [apply IH|reflexivity].
Qed.

(** The lazy dot hands over to what follows at the first place where
    that matches. *)
Lemma rmatch_Lazy_Any_hit (R : Type) (s : text) (cap : option text)
    (k : text -> option text -> option R) (x : R) :
  k s cap = Some x -> rmatch (Lazy Any) s cap k = Some x.
Proof.
  intros H. destruct s; cbn; now rewrite H.
Qed.

Lemma rmatch_Lazy_Any_cons (R : Type) (c : char) (s : text)
    (cap : option text) (k : text -> option text -> option R) :
  k (c :: s) cap = None ->
  rmatch (Lazy Any) (c :: s) cap k = rmatch (Lazy Any) s cap k.
Proof.
  intros H. cbn -[Nat.ltb]. rewrite H.
  replace (Nat.ltb (length s) (S (length s))) with true
    by (symmetry; apply Nat.ltb_lt; lia).
  reflexivity.
Qed.

Lemma rmatch_Lazy_Any_skip (R : Type) (a b : text) (cap : option text)
    (k : text -> option text -> option R) :
  (forall a1 c a2, a = a1 ++ c :: a2 -> k (c :: a2 ++ b) cap = None) ->
  rmatch (Lazy Any) (a ++ b) cap k = rmatch (Lazy Any) b cap k.
Proof.
  induction a as [|c a IH]; intros H; [reflexivity|].
  cbn [app]. rewrite rmatch_Lazy_Any_cons by (apply (H [] c a); reflexivity).
  apply IH. intros a1 c' a2 E. apply (H (c :: a1) c' a2). now rewrite E.
Qed.

(** Reading a prefix through text that does not hold it whole. *)
Lemma strip_prefix_app_None (p t s : text) :
  strip_prefix p t = None ->
  strip_prefix p (t ++ s) =
  match strip_prefix t p with
  | Some p' => strip_prefix p' s
  | None => None
  end.
Proof.
  revert t; induction p as [|x p IH]; intros [|y t]; cbn; try discriminate.
  - reflexivity.
  - rewrite (N.eqb_sym y x). destruct (N.eqb x y); [apply IH|reflexivity].
Qed.

Ltac split_eqb :=
  match goal with
  | |- context [N.eqb ?a ?b] =>
      destruct (N.eqb_spec a b); [subst|reflexivity]
  end.

(** The opening fence does not overlap itself: where it starts inside the
    text before it, it lies in that text whole. *)
Lemma fence_json_no_overlap (t rest : text) :
  t <> [] -> strip_prefix fence_json t = None ->
  strip_prefix fence_json (t ++ fence_json ++ rest) = None.
Proof.
  intros Hne H. rewrite (strip_prefix_app_None _ _ _ H).
  assert (E : fence_json = [96; 96; 96; 106; 115; 111; 110; 10]%N)
    by reflexivity.
  rewrite E in *; clear E.
  destruct t as [|c t]; [congruence|]; clear Hne.
  cbn; split_eqb.
  do 7 (destruct t as [|c t]; [reflexivity|]; cbn; split_eqb).
  destruct t; [discriminate H|reflexivity].
Qed.

Lemma rmatch_Seq (R : Type) (r1 r2 : regex) (s : text) (cap : option text)
    (k : text -> option text -> option R) :
  rmatch (Seq r1 r2) s cap k =
  rmatch r1 s cap (fun s' cap' => rmatch r2 s' cap' k).
Proof. reflexivity. Qed.

Lemma rmatch_Group (R : Type) (r : regex) (s : text) (cap : option text)
    (k : text -> option text -> option R) :
  rmatch (Group r) s cap k =
  rmatch r s cap
    (fun s' _ => k s' (Some (firstn (length s - length s') s))).
Proof. reflexivity. Qed.

Lemma firstn_before (a b : text) :
  firstn (length (a ++ b) - length b) (a ++ b) = a.
Proof.
  rewrite length_app.
  replace (length a + length b - length b) with (length a) by lia.
  induction a as [|x a IH]; cbn; [reflexivity|now f_equal].
Qed.

(** The closing fence is not read before the end of a body that decodes. *)
Lemma fence_close_not_in_body (ser a1 a2 rest : text) (c : char)
    (v : value) :
  decode ser = Some v -> ser = a1 ++ c :: a2 ->
  strip_prefix fence_close (c :: a2 ++ fence_close ++ rest) = None.
Proof.
  intros Hv ->.
  assert (E : fence_close = [10; 96; 96; 96]%N) by reflexivity.
  rewrite E; clear E. cbn -[N.eqb]. split_eqb.
  destruct a2 as [|c2 a2]; [reflexivity|]. cbn -[N.eqb]. split_eqb.
  exfalso. enough (Some v = None) by discriminate.
  rewrite <- Hv. apply decode_newline_backtick.
Qed.

(** At the opening fence the pattern reads the body up to the closing
    fence. *)
Lemma match_at_json_block (ser post : text) (v : value) :
  decode ser = Some v ->
  match_at json_block (fence_json ++ ser ++ fence_close ++ post)
  = Some (post, Some ser).
Proof.
  intros Hv. unfold match_at, json_block. cbn [cat].
  rewrite rmatch_Seq, rmatch_Str, strip_prefix_app.
  rewrite rmatch_Seq, rmatch_Group.
  rewrite rmatch_Lazy_Any_skip.
  - apply rmatch_Lazy_Any_hit.
    rewrite rmatch_Str, strip_prefix_app.
    now rewrite (firstn_before ser (fence_close ++ post)).
  - intros a1 c a2 E. rewrite rmatch_Str.
    now rewrite (fence_close_not_in_body _ _ post _ Hv E).
Qed.

(** Before the first opening fence nothing matches. *)
Lemma findall_json_block_skip (pre rest : text) :
  contains fence_json pre = false ->
  findall_from json_block 0 (pre ++ fence_json ++ rest)
  = findall_from json_block 0 (fence_json ++ rest).
Proof.
  induction pre as [|c pre IH]; intros H; [reflexivity|].
  apply contains_cons_false in H as [Hhead Htail].
  cbn [app findall_from].
  replace (match_at json_block (c :: pre ++ fence_json ++ rest))
    with (@None (text * option text)); [now apply IH|].
  unfold match_at, json_block. cbn [cat].
  rewrite rmatch_Seq, rmatch_Str.
  change (c :: pre ++ fence_json ++ rest)
    with ((c :: pre) ++ fence_json ++ rest).
  now rewrite fence_json_no_overlap.
Qed.

Lemma findall_from_hit (r : regex) (s rest : text) (cap : option text) :
  match_at r s = Some (rest, cap) ->
  exists l, findall_from r 0 s = item r s rest cap :: l.
Proof.
  intros H. destruct s; cbn [findall_from]; rewrite H; eauto.
Qed.

Lemma json_loads_decode (s : text) (v : value) :
  json_loads s = Ok v -> decode s = Some v.
Proof.
  unfold json_loads. destruct (decode s); now intros [= ->].
Qed.

(** C5, as amended.  A JSON object with both keys, written in a block
    fenced with the json tag, is recovered as it decodes, whatever follows
    the block, provided the text before the block holds no opening fence
    of its own. *)
Theorem fenced_call_recovered (pre ser post : text) (d : dict) :
  json_loads ser = Ok (VDict d) ->
  dict_in (lit "tool") d = true ->
  dict_in (lit "parameters") d = true ->
  contains fence_json pre = false ->
  _parse_tool_call (pre ++ fence_json ++ ser ++ fence_close ++ post)
  = Ok (Some d).
Proof.
  intros Hser Ht Hp Hpre.
  unfold _parse_tool_call, findall.
  rewrite findall_json_block_skip by assumption.
  destruct (findall_from_hit json_block _
              (match_at_json_block ser post (json_loads_decode _ Hser)))
    as [l ->].
  change (item json_block _ post (Some ser)) with ser.
  cbn [first_call]. rewrite Hser. cbn [is_tool_call].
  rewrite Ht, Hp. reflexivity.
Qed.

Lemma fenced_call_recovered_witness :
  _parse_tool_call
    (Samples.step_a_prose ++ fence_json ++ Samples.add_call_text
     ++ fence_close ++ [NL])
  = Ok (Some Samples.add_call).
Proof.
  apply fenced_call_recovered; vm_compute; reflexivity.
Defined.

(** C5, as stated, fails: prose that quotes a fenced call of its own
    before the block makes the extractor return the quoted call. *)
Lemma fenced_call_shadowed :
  json_loads Samples.add_call_text = Ok (VDict Samples.add_call)
  /\ is_tool_call (VDict Samples.add_call) = Some Samples.add_call
  /\ _parse_tool_call
       (Samples.quoting_prose ++ fence_json ++ Samples.add_call_text
        ++ fence_close ++ [NL])
     = Ok (Some Samples.subtract_call)
  /\ Samples.subtract_call <> Samples.add_call.
Proof.
  repeat split; try (vm_compute; reflexivity).
  discriminate.
Qed.

End FenceFacts.

(** ** The calculator server *)

Module ServerFacts.
Import CalculatorServer.


Lemma operands_missing (d : dict) :
  dict_in (lit "a") d = false \/ dict_in (lit "b") d = false ->
  operands (VDict d) = Raise missing_a_b.
Proof.
  intros H. unfold operands, py_in.
  destruct (dict_in (lit "a") d); [|reflexivity].
  destruct H as [H|H]; [discriminate|now rewrite H].
Qed.

Lemma lookup_add :
  dict_get (tools init) (lit "calculator:add")
  = Some {| id := lit "calculator:add"; name := lit "add";
            description := lit "Add two numbers together";
            handler := add |}.
Proof. reflexivity. Qed.

Lemma lookup_subtract :
  dict_get (tools init) (lit "calculator:subtract")
  = Some {| id := lit "calculator:subtract"; name := lit "subtract";
            description := lit "Subtract the second number from the first";
            handler := subtract |}.
Proof. reflexivity. Qed.

Lemma params_tool_id (tool_id parameters : value) :
  py_get (Samples.execute_params tool_id parameters) (lit "tool_id") VNone
  = Ok tool_id.
Proof. reflexivity. Qed.

Lemma params_parameters (tool_id parameters default : value) :
  py_get (Samples.execute_params tool_id parameters) (lit "parameters")
    default
  = Ok parameters.
Proof. reflexivity. Qed.

(** A tools/execute request naming a built-in tool reaches its handler
    with the parameters as they came. *)
Lemma execute_add (py_repr : value -> text) (parameters : value) :
  handle_execute_tool py_repr init
    (Samples.execute_params Samples.ADD parameters)
  = add parameters.
Proof.
  unfold handle_execute_tool.
  rewrite params_tool_id, params_parameters.
  change (truthy Samples.ADD) with true.
  unfold Samples.ADD, registered. cbn [negb hashable].
  now rewrite lookup_add.
Qed.

Lemma execute_subtract (py_repr : value -> text) (parameters : value) :
  handle_execute_tool py_repr init
    (Samples.execute_params Samples.SUBTRACT parameters)
  = subtract parameters.
Proof.
  unfold handle_execute_tool.
  rewrite params_tool_id, params_parameters.
  change (truthy Samples.SUBTRACT) with true.
  unfold Samples.SUBTRACT, registered. cbn [negb hashable].
  now rewrite lookup_subtract.
Qed.






(** C4, as amended.  A request naming a non-empty tool id that is not in
    the registry fails with the UnknownTool fault, and the built-in
    handlers fail with the MissingParameter fault whenever "a" or "b" is
    absent from the parameters, whether or not the other is there. *)
Theorem execute_tool_faults (py_repr : value -> text) :
  (forall (self : MCPCalculatorServer) (p : dict) (k : text),
      dict_get p (lit "tool_id") = Some (VStr k) -> k <> [] ->
      dict_get (tools self) k = None ->
      handle_execute_tool py_repr self (VDict p)
      = Raise (Faults.UnknownTool py_repr (VStr k)))
  /\ (forall d : dict,
      dict_in (lit "a") d = false \/ dict_in (lit "b") d = false ->
      add (VDict d) = Raise Faults.MissingParameter
      /\ subtract (VDict d) = Raise Faults.MissingParameter
      /\ handle_execute_tool py_repr init
           (Samples.execute_params Samples.ADD (VDict d))
         = Raise Faults.MissingParameter
      /\ handle_execute_tool py_repr init
           (Samples.execute_params Samples.SUBTRACT (VDict d))
         = Raise Faults.MissingParameter).
Proof.
  split.
  - intros self p k Hk Hne Hreg.
    unfold handle_execute_tool, py_get, get_default. rewrite Hk.
    destruct k as [|c k]; [congruence|].
    cbn [truthy negb registered hashable]. now rewrite Hreg.
  - intros d H. rewrite execute_add, execute_subtract.
    unfold add, subtract. rewrite (operands_missing _ H). auto.
Qed.

Lemma execute_tool_faults_witness :
  handle_execute_tool Samples.sample_repr init
    (Samples.execute_params (VStr (lit "calculator:multiply"))
       (Samples.a_b (VInt 2) (VInt 3)))
  = Raise (ValueError (lit "Unknown tool: calculator:multiply"))
  /\ handle_execute_tool Samples.sample_repr init
       (Samples.execute_params Samples.ADD (VDict [(lit "b", VInt 3)]))
     = Raise (ValueError (lit "Missing required parameters: 'a' and 'b'")).
Proof.
  split.
  - apply (proj1 (execute_tool_faults Samples.sample_repr) init
             [(lit "tool_id", VStr (lit "calculator:multiply"));
              (lit "parameters", Samples.a_b (VInt 2) (VInt 3))]
             (lit "calculator:multiply")).
    + reflexivity.
    + discriminate.
    + reflexivity.
  - apply (proj1 (proj2 (proj2
             (proj2 (execute_tool_faults Samples.sample_repr)
                [(lit "b", VInt 3)] (or_introl eq_refl))))).
Defined.

(** C4, as stated, fails: the empty tool id is not in the registry, and
    the fault it gets is not UnknownTool but the one for a missing
    tool_id. *)
Lemma empty_tool_id_not_unknown :
  dict_get (tools init) [] = None
  /\ handle_execute_tool Samples.sample_repr init
       (Samples.execute_params (VStr []) (Samples.a_b (VInt 2) (VInt 3)))
     = Raise (ValueError (lit "Missing required parameter: tool_id"))
  /\ handle_execute_tool Samples.sample_repr init
       (Samples.execute_params (VStr []) (Samples.a_b (VInt 2) (VInt 3)))
     <> Raise (Faults.UnknownTool Samples.sample_repr (VStr [])).
Proof.
  repeat split; try reflexivity. discriminate.
Qed.

(** *** The request handler *)

(** C6 at the input where the code departs from it: a body that is valid
    JSON but not an object.  The first [request.get] raises before the
    envelope is checked and outside the [try]; the exception leaves
    [do_POST] and no response is sent. *)
Theorem post_of_json_array_escapes (py_repr : value -> text) :
  utf8_decode (rfile (Samples.post Samples.array_body))
  = Ok Samples.array_body
  /\ json_loads Samples.array_body = Ok (VList [])
  /\ do_POST py_repr init (Samples.post Samples.array_body)
     = ([], Raise (AttributeError
                     (lit "'list' object has no attribute 'get'"))).
Proof. repeat split; reflexivity. Qed.

(** What C6 says does hold of every body that decodes to an object. *)
Lemma dispatch_of_object_body (py_repr : value -> text)
    (server : MCPCalculatorServer) (req : request) (body : text)
    (d : dict) :
  content_length req <> 0%Z ->
  utf8_decode (read (content_length req) (rfile req)) = Ok body ->
  json_loads body = Ok (VDict d) ->
  let jsonrpc := get_default d (lit "jsonrpc") VNone in
  let method := get_default d (lit "method") VNone in
  let params := get_default d (lit "params") (VDict []) in
  let request_id := get_default d (lit "id") VNone in
  (eq_str jsonrpc (lit "2.0") = false \/ truthy method = false ->
   do_POST py_repr server req
   = ([], Ok (error_response (-32600) (lit "Invalid Request") request_id)))
  /\ (eq_str jsonrpc (lit "2.0") = true -> truthy method = true ->
      eq_str method (lit "initialize") = false ->
      eq_str method (lit "tools/list") = false ->
      eq_str method (lit "tools/execute") = false ->
      do_POST py_repr server req
      = ([], Ok (error_response (-32601)
                   (lit "Method not found: " ++ py_str py_repr method)
                   request_id)))
  /\ (forall e : exn,
      eq_str jsonrpc (lit "2.0") = true ->
      eq_str method (lit "tools/execute") = true ->
      handle_execute_tool py_repr server params = Raise e ->
      do_POST py_repr server req
      = ([CallExecuteTool params],
         Ok (error_response (-32603) (lit "Internal error: " ++ exn_str e)
               request_id)))
  /\ (exists calls resp, do_POST py_repr server req = (calls, Ok resp)).
Proof.
  intros Hlen Hutf Hbody jsonrpc method params request_id.
  apply Z.eqb_neq in Hlen.
  unfold do_POST. rewrite Hlen, Hutf, Hbody. cbn [py_get].
  fold jsonrpc method params request_id.
  repeat split.
  - intros [H|H]; rewrite H; [reflexivity|].
    now rewrite orb_true_r.
  - intros H1 H2 H3 H4 H5. now rewrite H1, H2, H3, H4, H5.
  - intros e H1 H2 H3. rewrite H1, H2, H3.
    destruct method as [| | | |m| |]; try discriminate.
    apply text_eqb_eq in H2; subst m. reflexivity.
  - destruct (negb (eq_str jsonrpc (lit "2.0")) || negb (truthy method));
      [eauto|].
    destruct (eq_str method (lit "initialize")); [eauto|].
    destruct (eq_str method (lit "tools/list")); [eauto|].
    destruct (eq_str method (lit "tools/execute")); [|eauto].
    destruct (handle_execute_tool py_repr server params); eauto.
Qed.



(** A body that is not UTF-8 is outside what C7, as amended, covers: the
    decoding precedes the [try], and its error leaves [do_POST]. *)
Lemma post_of_non_utf8_escapes (py_repr : value -> text) :
  do_POST py_repr init (Samples.post_bytes Samples.latin1_body)
  = ([], Raise (UnicodeDecodeError [])).
Proof. reflexivity. Qed.


End ServerFacts.

(** ** The conversation loop *)

Module LoopFacts.
Import Agent ExtractorSpec ExtractorFacts LoopSpec.

Lemma parse_tool_call_keys (text : text) (d : dict) :
  _parse_tool_call text = Ok (Some d) ->
  dict_in (lit "tool") d = true /\ dict_in (lit "parameters") d = true.
Proof.
  unfold _parse_tool_call. rewrite !first_call_spec.
  destruct (first_some tool_call_of (findall json_block text)) eqn:E1;
    [intros [= <-]; eapply first_some_keys, E1|].
  destruct (first_some tool_call_of (findall bare_block text)) eqn:E2;
    [intros [= <-]; eapply first_some_keys, E2|].
  destruct (first_some tool_call_of [text]) eqn:E3;
    [intros [= <-]; eapply first_some_keys, E3|].
  destruct (first_some tool_call_of (findall json_pattern text)) eqn:E4;
    [intros [= <-]; eapply first_some_keys, E4|].
  destruct (first_some tool_call_of (findall simple_pattern text)) eqn:E5;
    [intros [= <-]; eapply first_some_keys, E5|].
  discriminate.
Qed.

(** The dict the extractor returns is true in a condition. *)
Lemma parse_tool_call_nonempty (text : text) (d : dict) :
  _parse_tool_call text = Ok (Some d) -> d <> [].
Proof.
  intros H ->. apply parse_tool_call_keys in H as [H _]. discriminate H.
Qed.

(** *** The history only grows *)

Lemma grows_refl (st : state) : grows st st.
Proof. exists []. now rewrite app_nil_r. Qed.

Lemma grows_trans (a b c : state) : grows a b -> grows b c -> grows a c.
Proof.
  intros [x Hx] [y Hy]. exists (x ++ y). now rewrite Hy, Hx, app_assoc.
Qed.

Lemma grows_append (st : state) (r : Role) (c : text) :
  grows st (append st r c).
Proof. now exists [msg r c]. Qed.

Lemma grows_send (st : state) (e : event) : grows st (send st e).
Proof. exists []. cbn. now rewrite app_nil_r. Qed.

Create HintDb history.
#[local] Hint Resolve grows_refl grows_append grows_send : history.

Section Loop.
Variable py_repr : value -> text.

Lemma grows_final_response (llm : list (result text)) (st : state) :
  grows st (final_state (final_response llm st)).
Proof.
  unfold final_response.
  destruct llm as [|[r|e] rest]; cbn [final_state]; auto with history.
  eapply grows_trans; [apply grows_send|apply grows_append].
Qed.

Lemma grows_on_exception (st0 : state) (tool_name : value) (o : outcome) :
  grows st0 (final_state o) ->
  grows st0 (final_state (on_exception py_repr tool_name o)).
Proof.
  destruct o as [r rest st|e rest st|st]; cbn [on_exception final_state];
    auto.
  intros H. eapply grows_trans; [exact H|].
  eapply grows_trans; [apply grows_append|apply grows_final_response].
Qed.

Lemma grows_execute_tool (tool_id : text) (parameters : value)
    (st : state) :
  grows st (snd (_execute_tool tool_id parameters st)).
Proof.
  unfold _execute_tool. cbn [send mcp_replies].
  destruct (mcp_replies st); cbn [snd]; exists []; cbn;
    now rewrite app_nil_r.
Qed.

Lemma grows_process (llm : list (result text)) (st : state) :
  grows st (final_state (_process_llm_response py_repr llm st)).
Proof.
  revert st. induction llm as [|[llm_response|e] rest IH]; intros st;
    cbn [_process_llm_response final_state]; auto with history.
  destruct (_parse_tool_call llm_response) as [[[|kv tool_call]|]|e];
    cbn [final_state];
    try (eapply grows_trans; [apply grows_send|apply grows_append]);
    auto with history.
  set (st1 := append (send st (Completion (messages st))) assistant
                llm_response).
  assert (H1 : grows st st1)
    by (eapply grows_trans; [apply grows_send|apply grows_append]).
  destruct (find_tool_id (tools st1) _) as [[|c tool_id]|].
  - eapply grows_trans; [exact H1|].
    eapply grows_trans; [apply grows_append|apply grows_final_response].
  - apply grows_on_exception.
    pose proof (grows_execute_tool (c :: tool_id)
                  (get_default (kv :: tool_call) (lit "parameters")
                     (VDict [])) st1) as H2.
    destruct (_execute_tool (c :: tool_id) _ st1) as [[[v|e]|] st2];
      cbn [snd] in H2; cbn [final_state].
    + eapply grows_trans; [exact H1|].
      eapply grows_trans; [exact H2|].
      eapply grows_trans; [apply grows_append|apply IH].
    + eapply grows_trans; eassumption.
    + eapply grows_trans; eassumption.
  - eapply grows_trans; [exact H1|].
    eapply grows_trans; [apply grows_append|apply grows_final_response].
Qed.

(** C8. Every operation of the loop only appends to the history: what
    [process_user_input] and [_process_llm_response] leave, however they
    end, is the history they found followed by new messages, the user
    message first for [process_user_input]; and when the extractor finds
    a call in the reply, the reply is appended as the assistant message
    it is, prose and call included. *)
Theorem history_only_appended :
  (forall (llm : list (result text)) (st : state),
      grows st (final_state (_process_llm_response py_repr llm st)))
  /\ (forall (user_input : text) (llm : list (result text)) (st : state),
      exists added,
        messages (final_state (process_user_input py_repr user_input llm st))
        = messages st ++ msg user user_input :: added)
  /\ (forall (llm_response : text) (tool_call : dict)
             (rest : list (result text)) (st : state),
      _parse_tool_call llm_response = Ok (Some tool_call) ->
      exists added,
        messages (final_state
                    (_process_llm_response py_repr
                       (Ok llm_response :: rest) st))
        = messages st ++ msg assistant llm_response :: added).
Proof.
  split; [exact grows_process|split].
  - intros user_input llm st. unfold process_user_input.
    destruct (grows_process llm (append st user user_input)) as [added H].
    exists added. rewrite H. cbn [append messages].
    now rewrite <- app_assoc.
  - intros llm_response tool_call rest st Hcall.
    pose proof (parse_tool_call_nonempty _ Hcall) as Hne.
    cbn [_process_llm_response]. rewrite Hcall.
    destruct tool_call as [|kv tool_call]; [congruence|].
    set (st1 := append (send st (Completion (messages st))) assistant
                  llm_response).
    assert (H1 : messages st1 = messages st ++ [msg assistant llm_response])
      by reflexivity.
    assert (Hgrow : forall o, grows st1 (final_state o) ->
              exists added, messages (final_state o)
                = messages st ++ msg assistant llm_response :: added).
    { intros o [added H]. exists added. rewrite H, H1.
      now rewrite <- app_assoc. }
    apply Hgrow.
    destruct (find_tool_id (tools st1) _) as [[|c tool_id]|].
    + eapply grows_trans; [apply grows_append|apply grows_final_response].
    + apply grows_on_exception.
      pose proof (grows_execute_tool (c :: tool_id)
                    (get_default (kv :: tool_call) (lit "parameters")
                       (VDict [])) st1) as H2.
      destruct (_execute_tool (c :: tool_id) _ st1) as [[[v|e]|] st2];
        cbn [snd] in H2; cbn [final_state]; auto.
      eapply grows_trans; [exact H2|].
      eapply grows_trans; [apply grows_append|apply grows_process].
    + eapply grows_trans; [apply grows_append|apply grows_final_response].
Qed.

(** *** Success recurses, failure falls back once *)

Lemma on_exception_not_raised (tool_name : value) (o : outcome) :
  is_raised o = false -> on_exception py_repr tool_name o = o.
Proof. destruct o; [reflexivity|discriminate|reflexivity]. Qed.

Lemma successful_step (s : tool_step) (rest : list (result text))
    (st : state) (mcp' : list (result value)) :
  step_ok (tools st) s ->
  mcp_replies st = Ok (output s) :: mcp' ->
  _process_llm_response py_repr (Ok (reply s) :: rest) st
  = on_exception py_repr (get (call s) (lit "tool"))
      (_process_llm_response py_repr rest (after_step py_repr st s)).
Proof.
  intros (Hcall & Hfind & Hid) Hmcp.
  pose proof (parse_tool_call_nonempty _ Hcall) as Hne.
  cbn [_process_llm_response]. rewrite Hcall.
  destruct (call s) as [|kv tool_call] eqn:Ecall; [congruence|].
  cbn [append send tools]. rewrite Hfind.
  destruct (resolved s) as [|c tool_id] eqn:Eid; [congruence|].
  unfold _execute_tool.
  change (mcp_replies (send (append (send st (Completion (messages st)))
                               assistant (reply s)) _))
    with (mcp_replies st).
  rewrite Hmcp. f_equal. f_equal.
  unfold after_step, append, send, set_mcp_replies, tool_result, msg.
  cbn [tools messages mcp_replies sent].
  rewrite Hmcp, Ecall, Eid. cbn [tl].
  now rewrite <- !app_assoc.
Qed.

Lemma chain_of_steps (steps : list tool_step) (rest : list (result text))
    (st : state) (mcp' : list (result value)) :
  Forall (step_ok (tools st)) steps ->
  mcp_replies st = map (fun s => Ok (output s)) steps ++ mcp' ->
  is_raised (_process_llm_response py_repr rest
               (after_steps py_repr st steps)) = false ->
  _process_llm_response py_repr (map (fun s => Ok (reply s)) steps ++ rest)
    st
  = _process_llm_response py_repr rest (after_steps py_repr st steps).
Proof.
  revert st. induction steps as [|s steps IH]; intros st Hok Hmcp Hend;
    [reflexivity|].
  inversion Hok as [|? ? Hs Hrest]; subst.
  cbn [map app] in *.
  rewrite (@successful_step s _ st _ Hs Hmcp).
  unfold after_steps in *. cbn [fold_left] in *.
  rewrite IH; try assumption.
  - now apply on_exception_not_raised.
  - cbn [after_step mcp_replies]. now rewrite Hmcp.
Qed.

(** A call naming no listed tool: one more completion, returned as it
    is. *)
Lemma unresolved_falls_back (llm_response final : text) (tool_call : dict)
    (rest : list (result text)) (st : state) :
  _parse_tool_call llm_response = Ok (Some tool_call) ->
  find_tool_id (tools st) (get tool_call (lit "tool")) = None ->
  let history :=
    messages st
    ++ [msg assistant llm_response;
        msg system (unknown_tool py_repr (tools st)
                      (get tool_call (lit "tool")))] in
  _process_llm_response py_repr (Ok llm_response :: Ok final :: rest) st
  = Returned final rest
      {| tools := tools st;
         messages := history ++ [msg assistant final];
         mcp_replies := mcp_replies st;
         sent := sent st ++ [Completion (messages st); Completion history] |}.
Proof.
  intros Hcall Hfind history.
  pose proof (parse_tool_call_nonempty _ Hcall) as Hne.
  cbn [_process_llm_response]. rewrite Hcall.
  destruct tool_call as [|kv tool_call]; [congruence|].
  cbn [append send tools]. rewrite Hfind.
  unfold final_response, history, unknown_tool, append, send, msg.
  cbn [tools messages mcp_replies sent].
  now rewrite <- !app_assoc.
Qed.


(** The fallback ends the turn at any depth: after a chain of successful
    rounds, a call that does not resolve still costs one completion, and
    its text comes back through every enclosing call. *)
Lemma unresolved_after_chain (steps : list tool_step)
    (llm_response final : text) (tool_call : dict)
    (rest : list (result text)) (st : state) (mcp' : list (result value)) :
  Forall (step_ok (tools st)) steps ->
  mcp_replies st = map (fun s => Ok (output s)) steps ++ mcp' ->
  _parse_tool_call llm_response = Ok (Some tool_call) ->
  find_tool_id (tools st) (get tool_call (lit "tool")) = None ->
  exists st',
    _process_llm_response py_repr
      (map (fun s => Ok (reply s)) steps
       ++ Ok llm_response :: Ok final :: rest) st
    = Returned final rest st'
    /\ mcp_replies st' = mcp'.
Proof.
  intros Hok Hmcp Hcall Hfind.
  assert (Htools : forall l s0, tools (fold_left (after_step py_repr) l s0)
                                = tools s0).
  { induction l as [|x l IH]; intros s0; [reflexivity|]. cbn. now rewrite IH. }
  assert (Hreplies : forall l s0 m,
             mcp_replies s0 = map (fun s => Ok (output s)) l ++ m ->
             mcp_replies (fold_left (after_step py_repr) l s0) = m).
  { induction l as [|x l IH]; intros s0 m H; [exact H|].
    cbn. apply IH. cbn. now rewrite H. }
  assert (Hfind' : find_tool_id (tools (after_steps py_repr st steps))
                     (get tool_call (lit "tool")) = None)
    by (unfold after_steps; now rewrite Htools).
  pose proof (@unresolved_falls_back llm_response final tool_call rest
                (after_steps py_repr st steps) Hcall Hfind') as Hlast.
  cbv zeta in Hlast.
  eexists. split.
  - rewrite (@chain_of_steps steps _ st mcp' Hok Hmcp);
      rewrite Hlast; reflexivity.
  - cbn [mcp_replies]. unfold after_steps. now apply Hreplies.
Qed.

End Loop.

Lemma history_only_appended_witness :
  exists added,
    messages (final_state
                (_process_llm_response Samples.sample_repr
                   [Ok Samples.step_a; Ok Samples.final_answer]
                   (Samples.session [Ok (VInt 15)])))
    = messages (Samples.session [Ok (VInt 15)])
      ++ msg assistant Samples.step_a :: added.
Proof.
  apply (proj2 (proj2 (history_only_appended Samples.sample_repr))
           Samples.step_a Samples.add_call).
  vm_compute; reflexivity.
Defined.


End LoopFacts.

(** ** The behaviours the specification lists, run *)

Module Tests.
Import Agent.

Example decode_call :
  json_loads Samples.add_call_text = Ok (VDict Samples.add_call).
Proof. vm_compute; reflexivity. Qed.

Example decode_numbers :
  json_loads (lit "[15, -0, 1.5, 1e400, 9007199254740993]")
  = Ok (VList [VInt 15; VInt 0; VFloat Samples.one_and_a_half;
               VFloat (S754_infinity false); VInt 9007199254740993]).
Proof. vm_compute; reflexivity. Qed.

Example decode_rejects :
  map json_loads [lit ""; lit "{"; lit "[1,]"; lit "01"; lit "nul";
                  jq "{'a' 1}"; jq "{'a': 1} x"]
  = repeat (Raise (JSONDecodeError [])) 7.
Proof. vm_compute; reflexivity. Qed.

(** Plain prose holds no call. *)
Example prose_has_no_call :
  _parse_tool_call Samples.final_answer = Ok None.
Proof. vm_compute; reflexivity. Qed.

(** A candidate lacking a key is passed over and the later one found. *)
Example incomplete_candidate_skipped :
  findall json_block Samples.two_blocks
  = [jq "{'tool': 'add'}"; Samples.subtract_call_text]
  /\ _parse_tool_call Samples.two_blocks = Ok (Some Samples.subtract_call).
Proof. split; vm_compute; reflexivity. Qed.

Example untagged_fence_found :
  findall json_block Samples.bare_fenced = []
  /\ _parse_tool_call Samples.bare_fenced = Ok (Some Samples.subtract_call).
Proof. split; vm_compute; reflexivity. Qed.

Example whole_text_found :
  _parse_tool_call Samples.multiply_reply = Ok (Some Samples.multiply_call).
Proof. vm_compute; reflexivity. Qed.

Example inline_call_found :
  findall json_pattern Samples.inline_call = [Samples.subtract_call_text]
  /\ findall simple_pattern Samples.inline_call = [Samples.subtract_call_text]
  /\ _parse_tool_call Samples.inline_call = Ok (Some Samples.subtract_call).
Proof. repeat split; vm_compute; reflexivity. Qed.

(** The balanced scan admits two levels of braces inside the parameters,
    the loose pattern stops at the first closing brace. *)
Example nested_parameters :
  let text := jq "{'tool': 't', 'parameters': {'a': {'b': {'c': 1}}}}" in
  findall json_pattern (lit "call " ++ text ++ lit ".") = [text]
  /\ findall simple_pattern (lit "call " ++ text ++ lit ".")
     = [jq "{'tool': 't', 'parameters': {'a': {'b': {'c': 1}}"].
Proof. split; vm_compute; reflexivity. Qed.

Import CalculatorServer.

Example post_add :
  do_POST Samples.sample_repr init (Samples.post Samples.add_body)
  = ([CallExecuteTool (Samples.execute_params Samples.ADD
                         (Samples.a_b (VInt 5) (VInt 10)))],
     Ok (success_response (VInt 15) (VStr (lit "exec-calculator:add")))).
Proof. vm_compute; reflexivity. Qed.

Example post_unknown_tool :
  snd (do_POST Samples.sample_repr init (Samples.post Samples.multiply_body))
  = Ok (error_response (-32603)
          (lit "Internal error: Unknown tool: calculator:multiply")
          (VInt 7)).
Proof. vm_compute; reflexivity. Qed.

Example post_unknown_method :
  do_POST Samples.sample_repr init (Samples.post Samples.unknown_method_body)
  = ([], Ok (error_response (-32601) (lit "Method not found: tools/call")
               (VInt 3))).
Proof. vm_compute; reflexivity. Qed.

Example post_without_marker :
  do_POST Samples.sample_repr init (Samples.post Samples.no_marker_body)
  = ([], Ok (error_response (-32600) (lit "Invalid Request") (VInt 4))).
Proof. vm_compute; reflexivity. Qed.

Example list_tools_in_registration_order :
  handle_list_tools init
  = VList [to_dict {| id := lit "calculator:add"; name := lit "add";
                      description := lit "Add two numbers together";
                      handler := add |};
           to_dict {| id := lit "calculator:subtract";
                      name := lit "subtract";
                      description :=
                        lit "Subtract the second number from the first";
                      handler := subtract |}].
Proof. vm_compute; reflexivity. Qed.

End Tests.

(** ** The registry *)

Module RegistryFacts.
Import CalculatorServer Registry.

Section Dict.
Context {A : Type}.

Lemma dict_get_set_same (d : list (text * A)) (k : text) (v : A) :
  dict_get (dict_set d k v) k = Some v.
Proof.
  induction d as [|[k' v'] d IH]; cbn.
  - now rewrite text_eqb_refl.
  - destruct (text_eqb k' k) eqn:E; cbn; rewrite E; [reflexivity|exact IH].
Qed.

Lemma dict_get_set_other (d : list (text * A)) (k k' : text) (v : A) :
  k' <> k -> dict_get (dict_set d k v) k' = dict_get d k'.
Proof.
  intros Hne. induction d as [|[k0 v0] d IH]; cbn.
  - destruct (text_eqb k k') eqn:E; [|reflexivity].
    apply text_eqb_eq in E. congruence.
  - destruct (text_eqb k0 k) eqn:E; cbn.
    + apply text_eqb_eq in E; subst k0.
      destruct (text_eqb k k') eqn:E'; [|reflexivity].
      apply text_eqb_eq in E'. congruence.
    + now rewrite IH.
Qed.

Lemma dict_get_In (d : list (text * A)) (k : text) :
  dict_in k d = true <-> In k (map fst d).
Proof.
  unfold dict_in. induction d as [|[k' v'] d IH]; cbn; [easy|].
  destruct (text_eqb k' k) eqn:E.
  - apply text_eqb_eq in E. tauto.
  - split; [tauto|]. intros [H|H]; [|tauto].
    subst. now rewrite text_eqb_refl in E.
Qed.

(** Assigning to a key the dict holds changes neither keys nor order. *)
Lemma dict_set_present (d : list (text * A)) (k : text) (v : A) :
  dict_in k d = true -> map fst (dict_set d k v) = map fst d.
Proof.
  unfold dict_in. induction d as [|[k' v'] d IH]; cbn; [discriminate|].
  destruct (text_eqb k' k) eqn:E; cbn; [reflexivity|].
  intros H. now rewrite IH.
Qed.

(** Assigning to a new key adds it at the end. *)
Lemma dict_set_absent (d : list (text * A)) (k : text) (v : A) :
  dict_in k d = false -> dict_set d k v = d ++ [(k, v)].
Proof.
  unfold dict_in. induction d as [|[k' v'] d IH]; cbn; [reflexivity|].
  destruct (text_eqb k' k) eqn:E; [discriminate|].
  intros H. now rewrite IH.
Qed.

End Dict.

(** X1. A tool is found under its id as soon as it is registered, and the
    registration leaves what is found under every other id as it was. *)
Theorem registered_tool_is_found (self : MCPCalculatorServer)
    (r : registration) :
  dict_get (tools (register self r)) (reg_id r) = Some (tool_of r)
  /\ forall k : text,
       k <> reg_id r ->
       dict_get (tools (register self r)) k = dict_get (tools self) k.
Proof.
  split; [apply dict_get_set_same|].
  intros k Hk. now apply dict_get_set_other.
Qed.


Lemma keys_register (self : MCPCalculatorServer) (r : registration)
    (k : text) :
  In k (keys (register self r)) <-> k = reg_id r \/ In k (keys self).
Proof.
  destruct (dict_in (reg_id r) (tools self)) eqn:E.
  - unfold keys at 1, register, register_tool; cbn [tools].
    rewrite dict_set_present by exact E. fold (keys self).
    apply dict_get_In in E. split; [tauto|].
    intros [->|H]; assumption.
  - unfold keys at 1, register, register_tool; cbn [tools].
    rewrite dict_set_absent by exact E. rewrite map_app, in_app_iff. cbn.
    fold (keys self). split; [intros [H|[H|[]]]|intros [H|H]]; auto.
Qed.

Lemma NoDup_register (self : MCPCalculatorServer) (r : registration) :
  NoDup (keys self) -> NoDup (keys (register self r)).
Proof.
  intros H. destruct (dict_in (reg_id r) (tools self)) eqn:E.
  - unfold keys at 1, register, register_tool; cbn [tools].
    now rewrite dict_set_present by exact E.
  - unfold keys at 1, register, register_tool; cbn [tools].
    rewrite dict_set_absent by exact E. rewrite map_app. cbn.
    apply NoDup_app; [exact H|repeat constructor; easy|].
    intros k Hk [Hin|[]]. subst k.
    apply dict_get_In in Hk. congruence.
Qed.

Lemma key_is_id_register (self : MCPCalculatorServer) (r : registration) :
  Forall (fun kv => fst kv = id (snd kv)) (tools self) ->
  Forall (fun kv => fst kv = id (snd kv)) (tools (register self r)).
Proof.
  unfold register, register_tool; cbn [tools].
  induction (tools self) as [|[k t] d IH]; intros H; cbn.
  - repeat constructor.
  - inversion H as [|? ? Hk Hd]; subst. cbn in Hk.
    destruct (text_eqb k (reg_id r)) eqn:E.
    + apply text_eqb_eq in E. constructor; [exact E|exact Hd].
    + constructor; [exact Hk|auto].
Qed.

Lemma descriptor_ids (d : list (text * MCPTool)) :
  Forall (fun kv => fst kv = id (snd kv)) d ->
  map (fun v => py_getitem v (lit "id")) (map (fun kv => to_dict (snd kv)) d)
  = map (fun k => Ok (VStr k)) (map fst d).
Proof.
  induction 1 as [|[k t] d Hk Hd IH]; cbn [map]; [reflexivity|].
  rewrite IH. f_equal. cbn in Hk. now rewrite Hk.
Qed.

(** X3. However [register_tool] was called, the registry holds each
    registered id once, every id that was registered and no other, each
    tool under its own id; the listing has one descriptor per id. *)
Theorem registry_ids_unique (rs : list registration) :
  let self := register_all rs in
  NoDup (keys self)
  /\ (forall k, In k (keys self) <-> In k (map reg_id rs))
  /\ Forall (fun kv => fst kv = id (snd kv)) (tools self)
  /\ exists descriptors,
       handle_list_tools self = VList descriptors
       /\ map (fun v => py_getitem v (lit "id")) descriptors
          = map (fun k => Ok (VStr k)) (keys self).
Proof.
  cbv zeta. unfold register_all.
  assert (G : forall s0,
             NoDup (keys s0) ->
             Forall (fun kv => fst kv = id (snd kv)) (tools s0) ->
             let self := fold_left register rs s0 in
             NoDup (keys self)
             /\ (forall k, In k (keys self)
                           <-> In k (map reg_id rs) \/ In k (keys s0))
             /\ Forall (fun kv => fst kv = id (snd kv)) (tools self)).
  { induction rs as [|r rs IH]; intros s0 Hnd Hid; cbn.
    - repeat split; auto; tauto.
    - destruct (IH (register s0 r) (@NoDup_register s0 r Hnd)
                  (@key_is_id_register s0 r Hid)) as (H1 & H2 & H3).
      repeat split; auto.
      + intros H. apply H2 in H as [H|H]; [tauto|].
        apply keys_register in H. intuition.
      + intros H. apply H2. rewrite keys_register. intuition. }
  destruct (G {| tools := [] |}) as (H1 & H2 & H3);
    [constructor|constructor|].
  repeat split; auto.
  - intros H. apply H2 in H as [H|[]]. exact H.
  - intros H. apply H2. now left.
  - eexists. split; [reflexivity|]. now apply descriptor_ids.
Qed.

End RegistryFacts.

(** ** More of the request handler *)

Module DispatchFacts.
Import CalculatorServer ServerFacts.

(** An answer to a JSON-RPC request: the marker, the id of the request,
    and one of "result" and "error". *)
Lemma envelope_of_error (code : Z) (message : text) (request_id : value) :
  exists r,
    error_response code message request_id = send_json_response (VDict r)
    /\ dict_get r (lit "jsonrpc") = Some (VStr (lit "2.0"))
    /\ dict_get r (lit "id") = Some request_id
    /\ dict_in (lit "result") r = false
    /\ dict_in (lit "error") r = true.
Proof. eexists. repeat split. Qed.

Lemma envelope_of_success (result request_id : value) :
  exists r,
    success_response result request_id = send_json_response (VDict r)
    /\ dict_get r (lit "jsonrpc") = Some (VStr (lit "2.0"))
    /\ dict_get r (lit "id") = Some request_id
    /\ dict_in (lit "result") r = true
    /\ dict_in (lit "error") r = false.
Proof. eexists. repeat split. Qed.

(** X4. Whatever object the body decodes to, the request is answered
    with one JSON object that carries the marker "2.0", the id of the
    request as it came (None when it has none), and exactly one of
    "result" and "error". *)
Theorem response_echoes_id (py_repr : value -> text)
    (server : MCPCalculatorServer) (req : request) (body : text)
    (d : dict) :
  content_length req <> 0%Z ->
  utf8_decode (read (content_length req) (rfile req)) = Ok body ->
  json_loads body = Ok (VDict d) ->
  exists calls r,
    do_POST py_repr server req = (calls, Ok (send_json_response (VDict r)))
    /\ dict_get r (lit "jsonrpc") = Some (VStr (lit "2.0"))
    /\ dict_get r (lit "id") = Some (get_default d (lit "id") VNone)
    /\ dict_in (lit "result") r = negb (dict_in (lit "error") r).
Proof.
  intros Hlen Hutf Hbody. apply Z.eqb_neq in Hlen.
  unfold do_POST. rewrite Hlen, Hutf, Hbody. cbn [py_get].
  set (request_id := get_default d (lit "id") VNone).
  assert (E : forall code message,
             exists calls r,
               (@nil call, @Ok response
                               (error_response code message request_id))
               = (calls, Ok (send_json_response (VDict r)))
               /\ dict_get r (lit "jsonrpc") = Some (VStr (lit "2.0"))
               /\ dict_get r (lit "id") = Some request_id
               /\ dict_in (lit "result") r = negb (dict_in (lit "error") r)).
  { intros code message.
    destruct (envelope_of_error code message request_id)
      as (r & -> & H1 & H2 & H3 & H4).
    exists [], r. rewrite H3, H4. auto. }
  assert (S : forall (calls : list call) result,
             exists calls' r,
               (calls, @Ok response (success_response result request_id))
               = (calls', Ok (send_json_response (VDict r)))
               /\ dict_get r (lit "jsonrpc") = Some (VStr (lit "2.0"))
               /\ dict_get r (lit "id") = Some request_id
               /\ dict_in (lit "result") r = negb (dict_in (lit "error") r)).
  { intros calls result.
    destruct (envelope_of_success result request_id)
      as (r & -> & H1 & H2 & H3 & H4).
    exists calls, r. rewrite H3, H4. auto. }
  destruct (negb _ || negb _); [apply E|].
  destruct (eq_str _ (lit "initialize")); [apply S|].
  destruct (eq_str _ (lit "tools/list")); [apply S|].
  destruct (eq_str _ (lit "tools/execute")); [|apply E].
  destruct (handle_execute_tool _ _ _) as [result|e]; [apply S|].
  destruct (envelope_of_error (-32603) (lit "Internal error: " ++ exn_str e)
              request_id) as (r & -> & H1 & H2 & H3 & H4).
  eexists _, r. rewrite H3, H4. auto.
Qed.

Lemma read_app (n : Z) (body extra : bytes) :
  (0 <= n <= Z.of_nat (length body))%Z ->
  read n (body ++ extra) = read n body.
Proof.
  intros H. unfold read.
  destruct (Z.ltb_spec n 0); [lia|].
  rewrite firstn_app.
  replace (Z.to_nat n - length body) with 0 by lia.
  cbn. now rewrite app_nil_r.
Qed.

(** X5. Only the bytes the Content-Length header counts are read: what
    the connection holds beyond them changes nothing of the answer. *)
Theorem bytes_beyond_length_ignored (py_repr : value -> text)
    (server : MCPCalculatorServer) (n : Z) (body extra : bytes) :
  (0 <= n <= Z.of_nat (length body))%Z ->
  do_POST py_repr server {| content_length := n; rfile := body ++ extra |}
  = do_POST py_repr server {| content_length := n; rfile := body |}.
Proof.
  intros H. unfold do_POST. cbn [content_length rfile].
  now rewrite read_app.
Qed.

(** X6. A tools/execute request that names a built-in tool and gives no
    "parameters" runs the handler on the empty dict, and so fails with
    the fault for missing 'a' and 'b'. *)
Theorem absent_parameters_are_missing (py_repr : value -> text)
    (p : dict) (tool_id : text) :
  dict_get p (lit "tool_id") = Some (VStr tool_id) ->
  dict_get p (lit "parameters") = None ->
  tool_id = lit "calculator:add" \/ tool_id = lit "calculator:subtract" ->
  handle_execute_tool py_repr init (VDict p) = Raise missing_a_b.
Proof.
  intros Hid Hpar Htool.
  unfold handle_execute_tool, py_get, get_default. rewrite Hid, Hpar.
  destruct Htool as [-> | ->].
  - change (truthy (VStr (lit "calculator:add"))) with true.
    cbn [negb registered hashable]. now rewrite lookup_add.
  - change (truthy (VStr (lit "calculator:subtract"))) with true.
    cbn [negb registered hashable]. now rewrite lookup_subtract.
Qed.

(** X7. A tools/execute request whose "params" is not an object is
    answered with error -32603: the fault is the attribute error of the
    first [params.get], and no tool is looked up. *)
Theorem params_not_object_is_internal_error (py_repr : value -> text)
    (server : MCPCalculatorServer) (req : request) (body : text)
    (d : dict) (params : value) :
  content_length req <> 0%Z ->
  utf8_decode (read (content_length req) (rfile req)) = Ok body ->
  json_loads body = Ok (VDict d) ->
  dict_get d (lit "jsonrpc") = Some (VStr (lit "2.0")) ->
  dict_get d (lit "method") = Some (VStr (lit "tools/execute")) ->
  dict_get d (lit "params") = Some params ->
  (forall p, params <> VDict p) ->
  do_POST py_repr server req
  = ([CallExecuteTool params],
     Ok (error_response (-32603)
           (lit "Internal error: " ++ apostrophe (type_name params)
            ++ lit " object has no attribute 'get'")
           (get_default d (lit "id") VNone))).
Proof.
  intros Hlen Hutf Hbody Hrpc Hmethod Hparams Hnot.
  apply Z.eqb_neq in Hlen.
  assert (E1 : get_default d (lit "jsonrpc") VNone = VStr (lit "2.0"))
    by (unfold get_default; now rewrite Hrpc).
  assert (E2 : get_default d (lit "method") VNone
               = VStr (lit "tools/execute"))
    by (unfold get_default; now rewrite Hmethod).
  assert (E3 : get_default d (lit "params") (VDict []) = params)
    by (unfold get_default; now rewrite Hparams).
  unfold do_POST. rewrite Hlen, Hutf, Hbody. cbn [py_get].
  rewrite E1, E2, E3.
  change (eq_str (VStr (lit "2.0")) (lit "2.0")) with true.
  change (truthy (VStr (lit "tools/execute"))) with true.
  change (eq_str (VStr (lit "tools/execute")) (lit "initialize"))
    with false.
  change (eq_str (VStr (lit "tools/execute")) (lit "tools/list"))
    with false.
  change (eq_str (VStr (lit "tools/execute")) (lit "tools/execute"))
    with true.
  cbn [negb orb]. unfold handle_execute_tool.
  destruct params as [| | | | | |p]; try reflexivity. now elim (Hnot p).
Qed.

(** X8. The guard of the handlers tests presence, not type: a list that
    holds the strings "a" and "b" passes it, and the handler then fails
    on the subscription with a type error, not with the fault for missing
    parameters. *)
Theorem presence_guard_is_no_type_check (l : list value) :
  existsb (fun x => eq_str x (lit "a")) l = true ->
  existsb (fun x => eq_str x (lit "b")) l = true ->
  add (VList l)
  = Raise (TypeError
             (lit "list indices must be integers or slices, not str"))
  /\ subtract (VList l)
     = Raise (TypeError
                (lit "list indices must be integers or slices, not str")).
Proof.
  intros Ha Hb. unfold add, subtract, operands, py_in.
  now rewrite Ha, Hb.
Qed.


Lemma response_echoes_id_witness :
  exists calls r,
    do_POST Samples.sample_repr init (Samples.post Samples.unknown_method_body)
    = (calls, Ok (send_json_response (VDict r)))
    /\ dict_get r (lit "jsonrpc") = Some (VStr (lit "2.0"))
    /\ dict_get r (lit "id")
       = Some (get_default Cases.unknown_method_request (lit "id") VNone)
    /\ dict_in (lit "result") r = negb (dict_in (lit "error") r).
Proof.
  apply (@response_echoes_id Samples.sample_repr init
           (Samples.post Samples.unknown_method_body)
           Samples.unknown_method_body Cases.unknown_method_request);
    [discriminate|reflexivity|reflexivity].
Defined.

Lemma bytes_beyond_length_ignored_witness :
  do_POST Samples.sample_repr init
    {| content_length := 33;
       rfile := Samples.ascii_bytes Samples.no_marker_body
                ++ Cases.pipelined |}
  = do_POST Samples.sample_repr init
      {| content_length := 33;
         rfile := Samples.ascii_bytes Samples.no_marker_body |}.
Proof.
  apply (@bytes_beyond_length_ignored Samples.sample_repr init 33
           (Samples.ascii_bytes Samples.no_marker_body) Cases.pipelined).
  vm_compute. split; discriminate.
Defined.

Lemma absent_parameters_are_missing_witness :
  handle_execute_tool Samples.sample_repr init (VDict Cases.bare_params)
  = Raise missing_a_b.
Proof.
  apply (@absent_parameters_are_missing Samples.sample_repr Cases.bare_params
           (lit "calculator:add"));
    [reflexivity|reflexivity|left; reflexivity].
Defined.

Lemma params_not_object_is_internal_error_witness :
  do_POST Samples.sample_repr init (Samples.post Cases.string_params_body)
  = ([CallExecuteTool (VStr (lit "calculator:add"))],
     Ok (error_response (-32603)
           (lit "Internal error: 'str' object has no attribute 'get'")
           (VInt 9))).
Proof.
  apply (@params_not_object_is_internal_error Samples.sample_repr init
           (Samples.post Cases.string_params_body) Cases.string_params_body
           Cases.string_params_request (VStr (lit "calculator:add")));
    try reflexivity; discriminate.
Defined.

Lemma presence_guard_is_no_type_check_witness :
  add (VList [VStr (lit "a"); VStr (lit "b")])
  = Raise (TypeError
             (lit "list indices must be integers or slices, not str"))
  /\ subtract (VList [VStr (lit "a"); VStr (lit "b")])
     = Raise (TypeError
                (lit "list indices must be integers or slices, not str")).
Proof.
  apply (@presence_guard_is_no_type_check
           [VStr (lit "a"); VStr (lit "b")]); reflexivity.
Defined.

End DispatchFacts.

(** ** More of the conversation loop *)

Module SessionFacts.
Import Agent ExtractorSpec ExtractorFacts LoopSpec LoopFacts SessionSpec.

(** X9. A name resolves to the id of the first catalog entry that has
    it; it does not resolve exactly when no entry has it, which is the
    case of every name that is not a string. *)
Theorem resolution_is_first_match (tools : list Tool) (tool_name : value) :
  match find_tool_id tools tool_name with
  | Some tool_id =>
      exists before tool after,
        tools = before ++ tool :: after
        /\ tool_name = VStr (name tool) /\ tool_id = id tool
        /\ Forall (fun t => tool_name <> VStr (name t)) before
  | None => Forall (fun t => tool_name <> VStr (name t)) tools
  end.
Proof.
  induction tools as [|t tools IH]; cbn; [constructor|].
  destruct (eq_str tool_name (name t)) eqn:E.
  - exists [], t, tools. repeat split; [|constructor].
    destruct tool_name; try discriminate.
    apply text_eqb_eq in E. now subst.
  - assert (Hne : tool_name <> VStr (name t)).
    { intros ->. cbn in E. now rewrite text_eqb_refl in E. }
    destruct (find_tool_id tools tool_name) as [i|].
    + destruct IH as (before & tool & after & -> & Hn & Hi & Hb).
      exists (t :: before), tool, after. repeat split; auto.
    + now constructor.
Qed.


Section Session.
Variable py_repr : value -> text.

Lemma final_response_returns (llm rest : list (result text)) (st st' : state)
    (r : text) :
  final_response llm st = Returned r rest st' ->
  exists before, messages st' = before ++ [msg assistant r].
Proof.
  unfold final_response. destruct llm as [|[x|e] l]; try discriminate.
  intros [= <- <- <-]. eexists. reflexivity.
Qed.

Lemma returned_is_last (llm rest : list (result text)) (st st' : state)
    (r : text) :
  _process_llm_response py_repr llm st = Returned r rest st' ->
  exists before, messages st' = before ++ [msg assistant r].
Proof.
  revert st. induction llm as [|[llm_response|e] l IH]; intros st;
    cbn [_process_llm_response]; try discriminate.
  destruct (_parse_tool_call llm_response) as [[[|kv tool_call]|]|e];
    try discriminate;
    try (intros [= <- <- <-]; eexists; reflexivity).
  destruct (find_tool_id _ _) as [[|c tool_id]|];
    try apply final_response_returns.
  destruct (_execute_tool _ _ _) as [[[v|e]|] st2]; cbn [on_exception];
    try discriminate; try apply final_response_returns.
  destruct (_process_llm_response py_repr l _) as [r0 rest0 st0| |] eqn:E;
    cbn [on_exception]; try discriminate;
    try apply final_response_returns.
  intros [= <- <- <-]. eapply IH, E.
Qed.

(** X10. Whenever a turn returns a text, that text is in the history: it
    is the content of the last message, whose role is assistant. *)
Theorem returned_text_is_last_message (user_input : text)
    (llm rest : list (result text)) (st st' : state) (r : text) :
  process_user_input py_repr user_input llm st = Returned r rest st' ->
  exists before, messages st' = before ++ [msg assistant r].
Proof. apply returned_is_last. Qed.

(** *** Tool faults do not end the turn *)




(** *** What a turn leaves of its surroundings *)

Lemma advances_refl (st : state) : advances st st.
Proof.
  repeat split; [now exists []|exists []; now rewrite app_nil_r].
Qed.

Lemma advances_trans (a b c : state) :
  advances a b -> advances b c -> advances a c.
Proof.
  intros (T1 & [u1 U1] & [n1 N1]) (T2 & [u2 U2] & [n2 N2]).
  repeat split.
  - congruence.
  - exists (u1 ++ u2). now rewrite U1, U2, app_assoc.
  - exists (n1 ++ n2). now rewrite N2, N1, app_assoc.
Qed.

Lemma advances_append (st : state) (r : Role) (c : text) :
  advances st (append st r c).
Proof.
  repeat split; [now exists []|exists []; cbn; now rewrite app_nil_r].
Qed.

Lemma advances_send (st : state) (e : event) : advances st (send st e).
Proof. repeat split; [now exists []|now exists [e]]. Qed.

Lemma advances_final_response (llm : list (result text)) (st : state) :
  advances st (final_state (final_response llm st)).
Proof.
  unfold final_response.
  destruct llm as [|[r|e] rest]; cbn [final_state];
    [apply advances_send| |apply advances_send].
  eapply advances_trans; [apply advances_send|apply advances_append].
Qed.

Lemma advances_on_exception (st0 : state) (tool_name : value)
    (o : outcome) :
  advances st0 (final_state o) ->
  advances st0 (final_state (on_exception py_repr tool_name o)).
Proof.
  destruct o as [r rest st|e rest st|st]; cbn [on_exception final_state];
    auto.
  intros H. eapply advances_trans; [exact H|].
  eapply advances_trans; [apply advances_append|].
  apply advances_final_response.
Qed.

Lemma advances_execute_tool (tool_id : text) (parameters : value)
    (st : state) :
  advances st (snd (_execute_tool tool_id parameters st)).
Proof.
  unfold _execute_tool.
  change (mcp_replies (send st (Execute tool_id parameters)))
    with (mcp_replies st).
  destruct (mcp_replies st) as [|r l] eqn:E; cbn [snd].
  - apply advances_send.
  - repeat split; cbn.
    + exists [r]. now rewrite E.
    + now exists [Execute tool_id parameters].
Qed.

Lemma advances_process (llm : list (result text)) (st : state) :
  advances st (final_state (_process_llm_response py_repr llm st)).
Proof.
  revert st. induction llm as [|[llm_response|e] rest IH]; intros st;
    cbn [_process_llm_response final_state]; try apply advances_send.
  destruct (_parse_tool_call llm_response) as [[[|kv tool_call]|]|e];
    cbn [final_state];
    try (eapply advances_trans; [apply advances_send|apply advances_append]);
    try apply advances_send.
  set (st1 := append (send st (Completion (messages st))) assistant
                llm_response).
  assert (H1 : advances st st1)
    by (eapply advances_trans; [apply advances_send|apply advances_append]).
  destruct (find_tool_id (tools st1) _) as [[|c tool_id]|].
  - eapply advances_trans; [exact H1|].
    eapply advances_trans; [apply advances_append|].
    apply advances_final_response.
  - apply advances_on_exception.
    pose proof (advances_execute_tool (c :: tool_id)
                  (get_default (kv :: tool_call) (lit "parameters")
                     (VDict [])) st1) as H2.
    destruct (_execute_tool (c :: tool_id) _ st1) as [[[v|e]|] st2];
      cbn [snd] in H2; cbn [final_state].
    + eapply advances_trans; [exact H1|].
      eapply advances_trans; [exact H2|].
      eapply advances_trans; [apply advances_append|apply IH].
    + eapply advances_trans; eassumption.
    + eapply advances_trans; eassumption.
  - eapply advances_trans; [exact H1|].
    eapply advances_trans; [apply advances_append|].
    apply advances_final_response.
Qed.

(** X12. However a turn ends, it leaves the catalog of tools as it was,
    has used the replies of the MCP server from the front and in order,
    and has only added to the requests sent. *)
Theorem turn_keeps_catalog (user_input : text) (llm : list (result text))
    (st : state) :
  advances st (final_state (process_user_input py_repr user_input llm st)).
Proof.
  unfold process_user_input.
  eapply advances_trans; [apply advances_append|apply advances_process].
Qed.

(** X13. A completion that fails after a tool has run is caught by the
    round of that tool: the failure is recorded as an error of the tool,
    one more completion is requested, and its text ends the turn. *)
Theorem completion_failure_blamed_on_tool (s : tool_step) (e : exn)
    (final : text) (rest : list (result text)) (st : state)
    (mcp' : list (result value)) :
  step_ok (tools st) s ->
  mcp_replies st = Ok (output s) :: mcp' ->
  let st1 := after_step py_repr st s in
  let history :=
    messages st1
    ++ [msg system (tool_error py_repr (get (call s) (lit "tool")) e)] in
  _process_llm_response py_repr (Ok (reply s) :: Raise e :: Ok final :: rest)
    st
  = Returned final rest
      {| tools := tools st;
         messages := history ++ [msg assistant final];
         mcp_replies := mcp';
         sent := sent st1
                 ++ [Completion (messages st1); Completion history] |}.
Proof.
  intros Hs Hmcp st1 history.
  rewrite (@successful_step py_repr s _ st mcp' Hs Hmcp).
  fold st1. cbn [_process_llm_response on_exception].
  unfold final_response, history, tool_error, append, send, msg.
  cbn [tools messages mcp_replies sent].
  f_equal. f_equal.
  - unfold st1, after_step. cbn [mcp_replies]. now rewrite Hmcp.
  - now rewrite <- !app_assoc.
Qed.

End Session.


Lemma returned_text_is_last_message_witness :
  exists before,
    messages (final_state
                (process_user_input Samples.sample_repr Cases.greeting
                   [Ok Samples.final_answer] (Samples.session [])))
    = before ++ [msg assistant Samples.final_answer].
Proof.
  apply (@returned_text_is_last_message Samples.sample_repr Cases.greeting
           [Ok Samples.final_answer] [] (Samples.session []) _
           Samples.final_answer).
  vm_compute; reflexivity.
Defined.


Lemma completion_failure_blamed_on_tool_witness :
  exists st',
    _process_llm_response Samples.sample_repr
      [Ok Samples.step_a; Raise Cases.timeout; Ok Samples.final_answer]
      (Samples.session [Ok (VInt 15)])
    = Returned Samples.final_answer [] st'
    /\ length (messages st') = 6%nat.
Proof.
  eexists. split.
  - apply (@completion_failure_blamed_on_tool Samples.sample_repr
             Samples.round_a Cases.timeout Samples.final_answer []
             (Samples.session [Ok (VInt 15)]) []).
    + repeat split; try (vm_compute; reflexivity); discriminate.
    + reflexivity.
  - reflexivity.
Defined.

End SessionFacts.

(** ** The client side of the protocol *)

Module ClientFacts.
Import CalculatorServer Agent Client SessionSpec TextFacts.

Section Transport.
Variable py_repr : value -> text.

(** What the client makes of the two envelopes of the server. *)
Lemma result_of_success (result request_id : value) (obj : value) :
  success_response result request_id = send_json_response obj ->
  result_of py_repr obj = Ok result.
Proof. intros [= <-]. reflexivity. Qed.

Lemma result_of_error (code : Z) (message : text) (request_id obj : value) :
  error_response code message request_id = send_json_response obj ->
  result_of py_repr obj
  = Raise (Exception (lit "MCP server error: " ++ message
                      ++ lit " (code: " ++ py_repr (VInt code) ++ lit ")")).
Proof. intros [= <-]. reflexivity. Qed.

(** X14. An answer with an "error" member is never taken for a result,
    whatever else it holds: an object there raises the exception that
    quotes its message and code, anything else, null included, makes the
    reading of it fail. *)
Theorem error_member_fails_request (d : dict) (error : value) :
  dict_get d (lit "error") = Some error ->
  is_ok (result_of py_repr (VDict d)) = false
  /\ (forall e : dict,
        error = VDict e ->
        result_of py_repr (VDict d)
        = Raise (Exception
                   (lit "MCP server error: "
                    ++ py_str py_repr (get e (lit "message"))
                    ++ lit " (code: " ++ py_str py_repr (get e (lit "code"))
                    ++ lit ")")))
  /\ (error = VNone ->
      result_of py_repr (VDict d)
      = Raise (AttributeError
                 (lit "'NoneType' object has no attribute 'get'"))).
Proof.
  intros H. unfold result_of. cbn [py_in]. unfold dict_in. rewrite H.
  cbn [py_getitem]. rewrite H. repeat split.
  - now destruct error.
  - now intros e ->.
  - now intros ->.
Qed.

(** X15. A tools/execute request of the agent, once the server has read
    it: exactly one call reaches the registry, and the agent gets what
    the handler returned, or an exception whose text is that of the
    handler's behind "MCP server error: Internal error: ", with the
    code -32603. *)
Theorem execute_round_trip (server : MCPCalculatorServer) (req : request)
    (body tool_id : text) (parameters : value) :
  content_length req <> 0%Z ->
  utf8_decode (read (content_length req) (rfile req)) = Ok body ->
  json_loads body = Ok (execute_request tool_id parameters) ->
  let params := VDict [(lit "tool_id", VStr tool_id);
                       (lit "parameters", parameters)] in
  exists obj,
    do_POST py_repr server req
    = ([CallExecuteTool params], Ok (send_json_response obj))
    /\ result_of py_repr obj
       = match handle_execute_tool py_repr server params with
         | Ok v => Ok v
         | Raise e =>
             Raise (Exception
                      (lit "MCP server error: Internal error: " ++ exn_str e
                       ++ lit " (code: " ++ py_repr (VInt (-32603))
                       ++ lit ")"))
         end.
Proof.
  intros Hlen Hutf Hbody params. apply Z.eqb_neq in Hlen.
  unfold do_POST. rewrite Hlen, Hutf, Hbody.
  change (py_get (execute_request tool_id parameters) (lit "jsonrpc") VNone)
    with (@Ok value (VStr (lit "2.0"))).
  change (py_get (execute_request tool_id parameters) (lit "method") VNone)
    with (@Ok value (VStr (lit "tools/execute"))).
  change (py_get (execute_request tool_id parameters) (lit "params")
            (VDict []))
    with (@Ok value params).
  change (py_get (execute_request tool_id parameters) (lit "id") VNone)
    with (@Ok value (VStr (lit "exec-" ++ tool_id))).
  cbv iota beta.
  change (eq_str (VStr (lit "2.0")) (lit "2.0")) with true.
  change (truthy (VStr (lit "tools/execute"))) with true.
  change (eq_str (VStr (lit "tools/execute")) (lit "initialize")) with false.
  change (eq_str (VStr (lit "tools/execute")) (lit "tools/list")) with false.
  change (eq_str (VStr (lit "tools/execute")) (lit "tools/execute"))
    with true.
  cbv iota beta. cbn [negb orb].
  destruct (handle_execute_tool py_repr server params) as [v|e].
  - eexists. split; [reflexivity|]. reflexivity.
  - eexists. split; [reflexivity|].
    cbn [error_response].
    erewrite result_of_error by reflexivity.
    now rewrite <- !app_assoc.
Qed.

(** X16. Connecting succeeds exactly when the answer is a result that
    is an object whose "serverInfo", if it has one, is an object: the
    name is read only for the log, yet a server that answers otherwise
    makes connecting fail. *)
Theorem connection_needs_server_info (data r : value) :
  initialize_connection py_repr data = Ok r
  <-> result_of py_repr data = Ok r
      /\ exists d, r = VDict d
                   /\ (dict_get d (lit "serverInfo") = None
                       \/ exists info,
                            dict_get d (lit "serverInfo")
                            = Some (VDict info)).
Proof.
  unfold initialize_connection.
  destruct (result_of py_repr data) as [response|e].
  2:{ split; [discriminate|]. now intros [? _]. }
  destruct response as [| | | | | |d];
    try (cbn [py_get]; split; [discriminate|];
         intros [[= <-] (d & ? & _)]; discriminate).
  cbn [py_get]. unfold get_default.
  destruct (dict_get d (lit "serverInfo")) as [info|] eqn:E.
  - destruct info as [| | | | | |i];
      try (cbn [py_get]; split; [discriminate|];
           intros [[= <-] (d' & [= <-] & [H|(i & H)])]; congruence).
    cbn [py_get]. split.
    + intros [= <-]. split; [reflexivity|]. exists d. split; [reflexivity|].
      right. now exists i.
    + now intros [[= <-] _].
  - cbn [py_get]. split.
    + intros [= <-]. split; [reflexivity|]. exists d. now split; [|left].
    + now intros [[= <-] _].
Qed.

End Transport.

(** X17. Of the answer of the completion endpoint only the first choice
    is read, and what is missing on the way to its text counts as the
    empty text; an empty list of choices is an error, reported behind
    both prefixes. *)
Theorem completion_reads_first_choice (d : dict) :
  (dict_in (lit "choices") d = false ->
   completion_of (VDict d) = Ok (VStr []))
  /\ (forall first rest,
        dict_get d (lit "choices") = Some (VList (first :: rest)) ->
        completion_of (VDict d)
        = completion_of (VDict [(lit "choices", VList [first])])
        /\ (forall c, first = VDict c ->
              dict_in (lit "message") c = false ->
              completion_of (VDict d) = Ok (VStr []))
        /\ (forall c m, first = VDict c ->
              dict_get c (lit "message") = Some (VDict m) ->
              completion_of (VDict d)
              = Ok (get_default m (lit "content") (VStr []))))
  /\ (dict_get d (lit "choices") = Some (VList []) ->
      completion_of (VDict d)
      = Raise (Exception
                 (lit "Failed to communicate with LLM API: Unexpected error when calling LLM API: list index out of range"))).
Proof.
  unfold completion_of, message_content. cbn [py_get]. unfold get_default.
  unfold dict_in. repeat split.
  - destruct (dict_get d (lit "choices")); [discriminate|]. reflexivity.
  - rewrite H. reflexivity.
  - intros c -> Hc. rewrite H. cbn [py_first py_get]. unfold get_default.
    destruct (dict_get c (lit "message")); [discriminate|]. reflexivity.
  - intros c m -> Hc. rewrite H. cbn [py_first py_get]. unfold get_default.
    rewrite Hc. reflexivity.
  - intros H. rewrite H. reflexivity.
Qed.


Lemma error_member_fails_request_witness :
  is_ok (result_of Samples.sample_repr (VDict Cases.null_error_answer))
  = false
  /\ result_of Samples.sample_repr (VDict Cases.null_error_answer)
     = Raise (AttributeError
                (lit "'NoneType' object has no attribute 'get'")).
Proof.
  split.
  - apply (@error_member_fails_request Samples.sample_repr
             Cases.null_error_answer VNone). reflexivity.
  - reflexivity.
Defined.

Lemma execute_round_trip_witness :
  exists obj,
    do_POST Samples.sample_repr init (Samples.post Samples.add_body)
    = ([CallExecuteTool
          (VDict [(lit "tool_id", Samples.ADD);
                  (lit "parameters", Samples.a_b (VInt 5) (VInt 10))])],
       Ok (send_json_response obj))
    /\ result_of Samples.sample_repr obj = Ok (VInt 15).
Proof.
  apply (@execute_round_trip Samples.sample_repr init
           (Samples.post Samples.add_body) Samples.add_body
           (lit "calculator:add") (Samples.a_b (VInt 5) (VInt 10)));
    [discriminate|reflexivity|reflexivity].
Defined.

End ClientFacts.

(** ** The catalog in the prompt *)

Module PromptFacts.
Import CalculatorServer Agent Client Prompt PromptSpec SessionSpec TextFacts
  FenceFacts.

Section Format.
Variable py_repr : value -> text.

(** The descriptor of a tool of the calculator is put into its entry. *)
Lemma format_tool_to_dict (t : MCPTool) :
  format_tool py_repr (to_dict t) = Ok (entry t).
Proof.
  unfold format_tool, to_dict, entry. cbn. f_equal.
  repeat (rewrite <- app_assoc; cbn [app]). reflexivity.
Qed.

Lemma format_each_to_dict (ts : list (text * MCPTool)) :
  format_each py_repr (map (fun kv => to_dict (snd kv)) ts)
  = Ok (map (fun kv => entry (snd kv)) ts).
Proof.
  induction ts as [|[k t] ts IH]; [reflexivity|].
  cbn [map format_each snd]. now rewrite format_tool_to_dict, IH.
Qed.

(** X18. Whatever tools the server has registered, its listing is put
    into words without an error: one entry for each tool, in the order
    of the registry, separated by an empty line, each with its name, its
    description and the operands a and b, both required numbers. *)
Theorem catalog_is_described (server : MCPCalculatorServer) :
  _format_tools_for_llm py_repr (handle_list_tools server)
  = Ok (join [NL] (map (fun kv => entry (snd kv))
                     (CalculatorServer.tools server))).
Proof.
  unfold _format_tools_for_llm, handle_list_tools. cbn [py_iter].
  now rewrite format_each_to_dict.
Qed.

(** X19. The schema of a tool is optional: a descriptor with a name
    and a description but no "parameters_schema", or with one that is an
    object without "properties", gets the three lines of the heading and
    no parameter.  A schema that is null is no such case: looking into
    it raises TypeError. *)
Theorem schema_is_optional (d : dict) (nm ds : value) :
  dict_get d (lit "name") = Some nm ->
  dict_get d (lit "description") = Some ds ->
  (dict_in (lit "parameters_schema") d = false ->
   format_tool py_repr (VDict d)
   = Ok (heading (py_str py_repr nm) (py_str py_repr ds)))
  /\ (forall s : dict,
        dict_get d (lit "parameters_schema") = Some (VDict s) ->
        dict_in (lit "properties") s = false ->
        format_tool py_repr (VDict d)
        = Ok (heading (py_str py_repr nm) (py_str py_repr ds)))
  /\ (dict_get d (lit "parameters_schema") = Some VNone ->
      format_tool py_repr (VDict d)
      = Raise (TypeError
                 (lit "argument of type 'NoneType' is not iterable"))).
Proof.
  intros Hn Hd. unfold format_tool. cbn [py_getitem py_in].
  rewrite Hn, Hd. unfold dict_in. repeat split.
  - intros H.
    destruct (dict_get d (lit "parameters_schema")); [discriminate|].
    reflexivity.
  - intros s Hs Hp. rewrite Hs. cbn [py_in]. unfold dict_in.
    destruct (dict_get s (lit "properties")); [discriminate|].
    reflexivity.
  - intros Hs. rewrite Hs. reflexivity.
Qed.

(** X20. The catalog is put into words as a whole or not at all: the
    first descriptor that cannot be formatted makes the formatting of
    the catalog raise what that descriptor raised, whatever follows. *)
Theorem first_bad_entry_fails_catalog (before after : list value)
    (tool : value) (e : exn) :
  forallb (fun t => is_ok (format_tool py_repr t)) before = true ->
  format_tool py_repr tool = Raise e ->
  _format_tools_for_llm py_repr (VList (before ++ tool :: after)) = Raise e.
Proof.
  intros Hb Ht. unfold _format_tools_for_llm. cbn [py_iter].
  enough (E : format_each py_repr (before ++ tool :: after) = Raise e)
    by now rewrite E.
  induction before as [|t before IH]; cbn [app format_each].
  - now rewrite Ht.
  - cbn [forallb] in Hb. apply andb_prop in Hb as [H1 H2].
    destruct (format_tool py_repr t); [|discriminate].
    now rewrite (IH H2).
Qed.

(** X21. Discovery changes the conversation and the prompt together or
    not at all: when it returns, the conversation is the one system
    message that holds the new prompt, whatever was said before, and the
    catalog is what is returned; when it raises, the conversation and
    the prompt are as they were. *)
Theorem prompt_and_history_change_together (reply : result value)
    (self : LLMAgent) :
  let self' := fst (discover_tools py_repr reply self) in
  match snd (discover_tools py_repr reply self) with
  | Ok tools =>
      messages self' = [{| role := system; content := system_prompt self' |}]
      /\ Prompt.tools self' = tools
      /\ exists tools_description,
           _format_tools_for_llm py_repr tools = Ok tools_description
           /\ system_prompt self' = system_prompt_of tools_description
  | Raise _ =>
      messages self' = messages self
      /\ system_prompt self' = system_prompt self
  end.
Proof.
  unfold discover_tools. destruct reply as [tools|e]; [|now cbn].
  destruct (_format_tools_for_llm py_repr tools) as [desc|e] eqn:E;
    cbn; [|now split].
  repeat split. now exists desc.
Qed.

End Format.

(** A text free of backticks holds no opening fence. *)
Lemma no_backtick_no_fence (s : text) :
  ~ In BACKTICK s -> contains fence_json s = false.
Proof.
  induction s as [|c s IH]; intros H; [reflexivity|].
  cbn [contains]. rewrite IH by (intros F; apply H; now right).
  replace (strip_prefix fence_json (c :: s)) with (@None text);
    [reflexivity|].
  change fence_json with (BACKTICK :: tl fence_json).
  cbn [strip_prefix].
  destruct (N.eqb_spec BACKTICK c) as [E|_]; [|reflexivity].
  exfalso. apply H. now left.
Qed.

Lemma forallb_not_In (c : char) (s : text) :
  forallb (fun x => negb (N.eqb x c)) s = true -> ~ In c s.
Proof.
  induction s as [|x s IH]; cbn [forallb In]; [tauto|].
  intros H [->|F]; apply andb_prop in H as [H1 H2].
  - now rewrite N.eqb_refl in H1.
  - now apply IH.
Qed.

(** The prompt after the descriptions: the text up to the template, and
    the text after the opening fence of the template. *)
Lemma prompt_tail_split :
  exists before rest,
    prompt_tail = before ++ fence_json ++ rest
    /\ ~ In BACKTICK (prompt_head ++ before)
    /\ first_call (findall_from json_block 0 (fence_json ++ rest))
       = Ok (Some example_call).
Proof.
  exists (firstn 75 prompt_tail), (skipn 83 prompt_tail).
  split; [vm_compute; reflexivity|].
  split; [|vm_compute; reflexivity].
  apply forallb_not_In. vm_compute. reflexivity.
Qed.

(** X22. The prompt is written in the format the extractor reads: with
    descriptions free of backticks, the first call the extractor finds
    in the prompt is step a of its example, add of 5 and 10.  The
    template before it, whose values are placeholders, is passed over
    because it is no JSON. *)
Theorem prompt_example_is_first_call (tools_description : text) :
  ~ In BACKTICK tools_description ->
  _parse_tool_call (system_prompt_of tools_description)
  = Ok (Some example_call).
Proof.
  intros H. destruct prompt_tail_split as (before & rest & E & Hb & Hc).
  unfold _parse_tool_call, findall, system_prompt_of. rewrite E.
  replace (prompt_head ++ tools_description ++ before ++ fence_json ++ rest)
    with ((prompt_head ++ tools_description ++ before) ++ fence_json ++ rest)
    by now rewrite <- !app_assoc.
  rewrite findall_json_block_skip, Hc; [reflexivity|].
  apply no_backtick_no_fence. intros F.
  apply in_app_or in F as [F|F]; [apply Hb, in_or_app; now left|].
  apply in_app_or in F as [F|F]; [now apply H|].
  apply Hb, in_or_app. now right.
Qed.

Section Server.
Variable py_repr : value -> text.

(** A request of the agent that is not tools/execute, once read. *)
Lemma post_of_request (server : MCPCalculatorServer) (req : request)
    (body : text) (request : value) :
  content_length req <> 0%Z ->
  utf8_decode (read (content_length req) (rfile req)) = Ok body ->
  json_loads body = Ok request ->
  (request = initialize_request ->
   do_POST py_repr server req
   = ([CallInitialize],
      Ok (success_response handle_initialize (VStr (lit "init-1")))))
  /\ (request = list_request ->
      do_POST py_repr server req
      = ([CallListTools],
         Ok (success_response (handle_list_tools server)
               (VStr (lit "list-1"))))).
Proof.
  intros Hlen Hutf Hbody. apply Z.eqb_neq in Hlen.
  unfold do_POST. rewrite Hlen, Hutf, Hbody.
  split; intros ->; reflexivity.
Qed.

(** X23. Discovery against this server, once the server has read the
    request: the registry is listed, and the agent ends with the listing
    as its catalog and a conversation of one system message, the prompt
    with one entry for each registered tool. *)
Theorem discovery_against_server (server : MCPCalculatorServer)
    (req : request) (body : text) (self : LLMAgent) :
  content_length req <> 0%Z ->
  utf8_decode (read (content_length req) (rfile req)) = Ok body ->
  json_loads body = Ok list_request ->
  let prompt :=
    system_prompt_of
      (join [NL] (map (fun kv => entry (snd kv))
                    (CalculatorServer.tools server))) in
  exists obj,
    do_POST py_repr server req
    = ([CallListTools], Ok (send_json_response obj))
    /\ discover_tools py_repr (result_of py_repr obj) self
       = ({| Prompt.tools := handle_list_tools server;
             messages := [{| role := system; content := prompt |}];
             system_prompt := prompt |},
          Ok (handle_list_tools server)).
Proof.
  intros Hlen Hutf Hbody prompt.
  destruct (post_of_request server req Hlen Hutf Hbody) as [_ H].
  rewrite (H eq_refl). eexists. split; [reflexivity|].
  change (result_of py_repr _) with (@Ok value (handle_list_tools server)).
  unfold discover_tools, _format_tools_for_llm, handle_list_tools.
  cbn [py_iter]. now rewrite format_each_to_dict.
Qed.

(** X24. Connecting to this server, once the server has read the
    request: the answer has the shape the agent asks of it, and the
    agent returns the handshake of the server as it is. *)
Theorem connection_against_server (server : MCPCalculatorServer)
    (req : request) (body : text) :
  content_length req <> 0%Z ->
  utf8_decode (read (content_length req) (rfile req)) = Ok body ->
  json_loads body = Ok initialize_request ->
  exists obj,
    do_POST py_repr server req
    = ([CallInitialize], Ok (send_json_response obj))
    /\ initialize_connection py_repr obj = Ok handle_initialize.
Proof.
  intros Hlen Hutf Hbody.
  destruct (post_of_request server req Hlen Hutf Hbody) as [H _].
  rewrite (H eq_refl). eexists. split; reflexivity.
Qed.

End Server.


Lemma schema_is_optional_witness :
  format_tool Samples.sample_repr (VDict Cases.echo_descriptor)
  = Ok (heading (lit "echo") (lit "Say it again")).
Proof.
  apply (@schema_is_optional Samples.sample_repr Cases.echo_descriptor
           (VStr (lit "echo")) (VStr (lit "Say it again")));
    reflexivity.
Defined.

Lemma first_bad_entry_fails_catalog_witness :
  _format_tools_for_llm Samples.sample_repr
    (VList ([to_dict Cases.add_tool]
            ++ Cases.nameless_descriptor :: [to_dict Cases.add_tool]))
  = Raise (KeyError (lit "'description'")).
Proof.
  apply (@first_bad_entry_fails_catalog Samples.sample_repr
           [to_dict Cases.add_tool] [to_dict Cases.add_tool]
           Cases.nameless_descriptor (KeyError (lit "'description'")));
    vm_compute; reflexivity.
Defined.

Lemma prompt_example_is_first_call_witness :
  _parse_tool_call (system_prompt_of (entry Cases.add_tool))
  = Ok (Some example_call).
Proof.
  apply (@prompt_example_is_first_call (entry Cases.add_tool)).
  apply forallb_not_In. vm_compute. reflexivity.
Defined.

Lemma discovery_against_server_witness :
  exists obj,
    do_POST Samples.sample_repr init (Samples.post Cases.list_body)
    = ([CallListTools], Ok (send_json_response obj))
    /\ fst (discover_tools Samples.sample_repr
              (result_of Samples.sample_repr obj) Cases.fresh_agent)
       = (let prompt :=
            system_prompt_of
              (join [NL] (map (fun kv => entry (snd kv))
                            (CalculatorServer.tools init))) in
          {| Prompt.tools := handle_list_tools init;
             messages := [{| role := system; content := prompt |}];
             system_prompt := prompt |}).
Proof.
  destruct (@discovery_against_server Samples.sample_repr init
              (Samples.post Cases.list_body) Cases.list_body
              Cases.fresh_agent)
    as (obj & H1 & H2); [discriminate|reflexivity|reflexivity|].
  exists obj. split; [exact H1|]. now rewrite H2.
Defined.

Lemma connection_against_server_witness :
  exists obj,
    do_POST Samples.sample_repr init (Samples.post Cases.initialize_body)
    = ([CallInitialize], Ok (send_json_response obj))
    /\ initialize_connection Samples.sample_repr obj = Ok handle_initialize.
Proof.
  apply (@connection_against_server Samples.sample_repr init
           (Samples.post Cases.initialize_body) Cases.initialize_body);
    [discriminate|reflexivity|reflexivity].
Defined.

End PromptFacts.

(** ** Texts the extractor has nothing to find in, and texts that are
    the call *)

Module ScanFacts.
Import Agent ScanSpec ExtractorFacts FenceFacts TextFacts.

(** The lazy dot fails when what follows it fails wherever it is tried. *)
Lemma rmatch_Lazy_Any_none (R : Type) (s : text) (cap : option text)
    (k : text -> option text -> option R) :
  (forall a b, s = a ++ b -> k b cap = None) ->
  rmatch (Lazy Any) s cap k = None.
Proof.
  induction s as [|c s IH]; intros H.
  - cbn. now rewrite (H [] []).
  - rewrite rmatch_Lazy_Any_cons by now apply (H []).
    apply IH. intros a b E. apply (H (c :: a) b). now rewrite E.
Qed.



(** A text where no line starts with a backtick has no fenced block. *)
Lemma match_at_block_none (opening s : text) :
  (forall a b, s <> a ++ NL :: 96%N :: b) ->
  match_at (block opening) s = None.
Proof.
  intros H. unfold match_at, block. cbn [cat].
  rewrite rmatch_Seq, rmatch_Str.
  destruct (strip_prefix opening s) as [t|] eqn:E; [|reflexivity].
  apply strip_prefix_Some in E.
  rewrite rmatch_Seq, rmatch_Group.
  apply rmatch_Lazy_Any_none. intros a b Et. rewrite rmatch_Str.
  destruct (strip_prefix fence_close b) as [r|] eqn:F; [|reflexivity].
  apply strip_prefix_Some in F. exfalso.
  apply (H (opening ++ a) (96%N :: 96%N :: r)).
  rewrite E, Et, F. now rewrite <- app_assoc.
Qed.

Lemma findall_from_none (r : regex) (s : text) (skip : nat) :
  (forall a b, s = a ++ b -> match_at r b = None) ->
  findall_from r skip s = [].
Proof.
  revert skip; induction s as [|c s IH]; intros skip H.
  - destruct skip; cbn [findall_from]; [|reflexivity].
    now rewrite (H [] []).
  - assert (Hs : forall a b, s = a ++ b -> match_at r b = None).
    { intros a b E. apply (H (c :: a) b). now rewrite E. }
    destruct skip; cbn [findall_from]; [|now apply IH].
    rewrite (H [] (c :: s)) by reflexivity. now apply IH.
Qed.

Lemma findall_block_none (opening s : text) :
  (forall a b, s <> a ++ NL :: 96%N :: b) ->
  findall (block opening) s = [].
Proof.
  intros H. apply findall_from_none. intros a b E.
  apply match_at_block_none. intros a' b' E'.
  apply (H (a ++ a') b'). rewrite E, E'. now rewrite <- app_assoc.
Qed.

(** X25. A text that is itself the JSON of a call is that call: when
    the whole text decodes to an object with both keys, the extractor
    returns that object.  No fenced block can come first, for no JSON
    document has a line that starts with a backtick. *)
Theorem whole_text_call_is_found (text : text) (d : dict) :
  json_loads text = Ok (VDict d) ->
  dict_in (lit "tool") d = true ->
  dict_in (lit "parameters") d = true ->
  _parse_tool_call text = Ok (Some d).
Proof.
  intros Hd Ht Hp.
  assert (Hclean : forall a b, text <> a ++ NL :: 96%N :: b).
  { intros a b E. apply json_loads_decode in Hd.
    rewrite E, decode_newline_backtick in Hd. discriminate. }
  unfold _parse_tool_call.
  change json_block with (block fence_json).
  change bare_block with (block fence_bare).
  rewrite !findall_block_none by exact Hclean.
  cbn [first_call or_else]. rewrite Hd. cbn [is_tool_call].
  now rewrite Ht, Hp.
Qed.

(** *** Without an opening brace *)



















Section Loop.
Variable py_repr : value -> text.


End Loop.


Lemma whole_text_call_is_found_witness :
  _parse_tool_call Samples.subtract_call_text
  = Ok (Some Samples.subtract_call).
Proof.
  apply (@whole_text_call_is_found Samples.subtract_call_text
           Samples.subtract_call); reflexivity.
Defined.



End ScanFacts.
